(** * File_Transfer: location routing and transfer dispatch

  A shallow embedding of [file_transfer.py] and [handler.py].

  Python strings are modelled as [string]; a function that may raise
  returns a [result]; code that talks to AWS, KMS or the SMB server runs
  in a small monad that threads the list of calls made to those services
  and takes their replies from a [World] record.  Logging and wall-clock
  reads influence neither control flow nor results and are left out,
  except for the time stamp that ends up in the instance name tag. *)

From Stdlib Require Import Ascii String List Bool Arith Lia.
From stdpp Require Import base strings gmap.

(** ** Python runtime: exceptions, results, built-in string operations *)

Module Py.

(** The exception classes that occur in the two modules.  [Exception] is
    the bare class raised by [raise Exception]; [External] stands for
    whatever a boto3 / pysmb call raises. *)
Inductive exn :=
| Exception
| NameError (name : string)
| KeyError (key : string)
| IndexError
| TypeError
| AttributeError (name : string)
| External (what : string).

Inductive result (A : Type) :=
| Ok (a : A)
| Raise (e : exn).
Arguments Ok {A} a.
Arguments Raise {A} e.

Definition rbind {A B} (r : result A) (k : A -> result B) : result B :=
  match r with
  | Ok a => k a
  | Raise e => Raise e
  end.

(** The values a function of [file_transfer.py] hands back. *)
Inductive value :=
| VNone
| VTrue
| VFalse
| VExceptionClass.

Definition nl : ascii := "010"%char.

(** [sub in s] *)
Fixpoint str_in (sub s : string) : bool :=
  String.prefix sub s
  || match s with
     | EmptyString => false
     | String _ s' => str_in sub s'
     end.

Definition push_char (c : ascii) (l : list string) : list string :=
  match l with
  | seg :: rest => String c seg :: rest
  | [] => [String c ""]
  end.

(** [s.split(sep, maxsplit)] for a non-empty [sep]; [None] is Python's
    default [maxsplit = -1].  The scan goes left to right; after a hit
    the remaining [length sep - 1] characters of the separator are
    skipped, so occurrences never overlap. *)
Fixpoint split_go (sep : string) (maxsplit : option nat) (skip : nat)
         (s : string) : list string :=
  match s with
  | EmptyString => [""]
  | String c s' =>
      match skip with
      | S k => split_go sep maxsplit k s'
      | O =>
          if negb (bool_decide (maxsplit = Some 0)) && String.prefix sep s
          then "" :: split_go sep (pred <$> maxsplit) (String.length sep - 1) s'
          else push_char c (split_go sep maxsplit 0 s')
      end
  end.

Definition split (sep : string) (s : string) : list string :=
  split_go sep None 0 s.

Definition splitn (sep : string) (maxsplit : nat) (s : string) : list string :=
  split_go sep (Some maxsplit) 0 s.

(** [l[i]] for [i >= 0] and [l[-1]]. *)
Definition index {A} (l : list A) (i : nat) : result A :=
  match l !! i with
  | Some x => Ok x
  | None => Raise IndexError
  end.

Definition index_last {A} (l : list A) : result A :=
  match last l with
  | Some x => Ok x
  | None => Raise IndexError
  end.

(** [d[k]] on a dict with string keys. *)
Definition getitem {V} (d : gmap string V) (k : string) : result V :=
  match d !! k with
  | Some v => Ok v
  | None => Raise (KeyError k)
  end.

End Py.
Export Py.

Notation "'let*' x ':=' r 'in' k" := (rbind r (fun x => k))
(at level 10, x name, r at level 100, k at level 200).

(** ** The fragment of [re] used by the classifier *)

Module Re.

Inductive class_item :=
| One (c : ascii)
| Rng (lo hi : ascii).

Inductive regex :=
| Lit (c : ascii)
| Class (items : list class_item)
| Seq (r1 r2 : regex)
| Alt (r1 r2 : regex)
| Opt (r : regex)
| Repeat (n : nat) (r : regex)
| Bol
| Eol.

Definition item_match (c : ascii) (i : class_item) : bool :=
  match i with
  | One c' => bool_decide (c = c')
  | Rng lo hi =>
      (nat_of_ascii lo <=? nat_of_ascii c) && (nat_of_ascii c <=? nat_of_ascii hi)
  end.

Definition class_match (c : ascii) (items : list class_item) : bool :=
  existsb (item_match c) items.

(** A matcher position: the offset into the subject and what is left. *)
Definition pos : Type := nat * string.

(** Backtracking matcher in continuation-passing style.  Without the
    MULTILINE flag [^] matches at offset 0 only, and [$] at the end of
    the subject or just before a newline that ends it. *)
Fixpoint run (r : regex) (p : pos) (k : pos -> bool) : bool :=
  match r with
  | Lit c =>
      match p.2 with
      | String x rest => bool_decide (x = c) && k (S p.1, rest)
      | EmptyString => false
      end
  | Class items =>
      match p.2 with
      | String x rest => class_match x items && k (S p.1, rest)
      | EmptyString => false
      end
  | Seq r1 r2 => run r1 p (fun q => run r2 q k)
  | Alt r1 r2 => run r1 p k || run r2 p k
  | Opt r1 => run r1 p k || k p
  | Repeat n r1 =>
      (fix rep (n : nat) (p : pos) (k : pos -> bool) : bool :=
         match n with
         | O => k p
         | S n' => run r1 p (fun q => rep n' q k)
         end) n p k
  | Bol => bool_decide (p.1 = 0) && k p
  | Eol =>
      match p.2 with
      | EmptyString => k p
      | String x EmptyString => bool_decide (x = nl) && k p
      | _ => false
      end
  end.

(** [re.search(r, s) != None]: try every start offset. *)
Fixpoint search_from (r : regex) (off : nat) (s : string) : bool :=
  run r (off, s) (fun _ => true)
  || match s with
     | EmptyString => false
     | String _ s' => search_from r (S off) s'
     end.

Definition search (r : regex) (s : string) : bool := search_from r 0 s.

(** What the matcher computes, as a relation between the position
    before and the position after a match of [r]. *)
Fixpoint rep_sem (step : pos -> pos -> Prop) (n : nat) (p q : pos) : Prop :=
  match n with
  | O => q = p
  | S n' => exists m, step p m /\ rep_sem step n' m q
  end.

Fixpoint sem (r : regex) (p q : pos) : Prop :=
  match r with
  | Lit c => exists rest, p.2 = String c rest /\ q = (S p.1, rest)
  | Class items =>
      exists x rest,
        p.2 = String x rest /\ class_match x items = true /\ q = (S p.1, rest)
  | Seq r1 r2 => exists m, sem r1 p m /\ sem r2 m q
  | Alt r1 r2 => sem r1 p q \/ sem r2 p q
  | Opt r1 => sem r1 p q \/ q = p
  | Repeat n r1 => rep_sem (sem r1) n p q
  | Bol => p.1 = 0 /\ q = p
  | Eol => (p.2 = "" \/ p.2 = String nl "") /\ q = p
  end.

End Re.

(** ** Calls to the outside world *)

Module Eff.

Record run_instances_request := {
  ImageId : string;
  IamInstanceProfile : string;
  InstanceInitiatedShutdownBehavior : string;
  MinCount : nat;
  MaxCount : nat;
  KeyName : string;
  InstanceType : string;
  SecurityGroupIds : list string;
  SubnetId : string;
  UserData : string;
  Tags : list (string * string)
}.

(** One entry per request sent to KMS, S3, the SMB server or EC2. *)
Inductive call :=
| KmsDecrypt (ciphertext : string)
| Boto3Client (service : string)
| S3Mv (src dst : string)
| SmbConnect (username password local_name server_name domain ip : string)
             (port : nat)
| SmbRetrieveFile (service path : string)
| S3UploadFileobj (data bucket key : string)
| Ec2RunInstances (req : run_instances_request).

(** How the collaborators answer.  [kms_decrypt] covers the chain
    [b64decode], [decrypt], [decode('utf-8')]; [smb_retrieveFile] gives the
    bytes that reached the buffer and the exception raised afterwards, if
    any; [ec2_run_instances] gives the instance ids of the response. *)
Record World := {
  kms_decrypt : string -> result string;
  boto3_client : string -> result unit;
  s3_mv : string -> string -> result unit;
  smb_connect : string -> string -> string -> nat -> result value;
  smb_retrieveFile : string -> string -> string * option exn;
  s3_upload_fileobj : string -> string -> string -> result unit;
  ec2_run_instances : run_instances_request -> result (list string);
  now : string
}.

Definition trace := list call.

Definition M (A : Type) : Type := trace -> result A * trace.

Definition ret {A} (a : A) : M A := fun t => (Ok a, t).

Definition lift {A} (r : result A) : M A := fun t => (r, t).

Definition bind {A B} (m : M A) (k : A -> M B) : M B :=
  fun t =>
    match m t with
    | (Ok a, t') => k a t'
    | (Raise e, t') => (Raise e, t')
    end.

(** A request [c] whose answer is [reply]. *)
Definition perform {A} (c : call) (reply : result A) : M A :=
  fun t => (reply, t ++ [c]).

(** [try: m] with the outcome handed to the [except] clause. *)
Definition attempt {A} (m : M A) : M (result A) :=
  fun t => let '(r, t') := m t in (Ok r, t').

End Eff.
Export Eff.

Notation "'let!' x ':=' m 'in' k" := (bind m (fun x => k))
(at level 10, x name, m at level 100, k at level 200).

(** ** file_transfer.py *)

Module file_transfer.
Import Re.

Definition decrypt_KMS_credentials (w : World) (username password : string)
  : M (string * string) :=
  let! username := perform (KmsDecrypt username) (kms_decrypt w username) in
  let! password := perform (KmsDecrypt password) (kms_decrypt w password) in
  ret (username, password).

Definition digit : regex := Class [Rng "0" "9"].

(** [(25[0-5]|2[0-4][0-9]|[01]?[0-9][0-9]?)] *)
Definition octet_re : regex :=
  Alt (Seq (Lit "2") (Seq (Lit "5") (Class [Rng "0" "5"])))
    (Alt (Seq (Lit "2") (Seq (Class [Rng "0" "4"]) digit))
       (Seq (Opt (Class [One "0"; One "1"])) (Seq digit (Opt digit)))).

(** [^(octet\.){3}octet$] *)
Definition ipv4_re : regex :=
  Seq Bol (Seq (Repeat 3 (Seq octet_re (Lit "."))) (Seq octet_re Eol)).

Definition identify_location_type (directory : string) : result string :=
  if str_in "s3://" directory then Ok "s3"
  else
    let* rootURL := index (split "/" directory) 0 in
    if search ipv4_re rootURL then
      match index (split "/" directory) 1 with
      | Ok subURL => Ok "on-prem"
      | Raise _ => Raise Exception
      end
    else Raise Exception.

(** Methods of a boto3 S3 client: the transfer methods and the common
    bucket and object operations.  The list is not exhaustive, but the
    client has no method called [mv]: that name belongs to
    [s3fs.S3FileSystem], whose construction is commented out on line 15. *)
Definition s3_client_methods : list string :=
  ["abort_multipart_upload"; "can_paginate"; "close";
   "complete_multipart_upload"; "copy"; "copy_object"; "create_bucket";
   "create_multipart_upload"; "delete_bucket"; "delete_object";
   "delete_objects"; "download_file"; "download_fileobj";
   "generate_presigned_post"; "generate_presigned_url"; "get_object";
   "get_paginator"; "get_waiter"; "head_bucket"; "head_object";
   "list_buckets"; "list_objects"; "list_objects_v2"; "put_object";
   "upload_file"; "upload_fileobj"; "upload_part"; "upload_part_copy"].

(** [s3.name] on the module-level [s3 = boto3.client('s3')]. *)
Definition s3_client_getattr (name : string) : result unit :=
  if bool_decide (name ∈ s3_client_methods) then Ok tt
  else Raise (AttributeError name).

(** The [try] covers the lookup of [s3.mv] and the call; whatever goes
    wrong in it is turned into a bare [Exception]. *)
Definition _move_s3_to_s3 (w : World) (source_location target_location : string)
  : M value :=
  let! s3_source_directory := lift (index (split "s3://" source_location) 1) in
  let! s3_target_directory := lift (index (split "s3://" target_location) 1) in
  let! moved :=
    attempt
      (let! mv := lift (s3_client_getattr "mv") in
       perform (S3Mv s3_source_directory s3_target_directory)
         (s3_mv w s3_source_directory s3_target_directory)) in
  match moved with
  | Ok _ => ret VTrue
  | Raise _ => lift (Raise Exception)
  end.

Definition _move_on_prem_to_on_prem (source_location target_location : string)
  : M value :=
  ret VExceptionClass.

Definition _move_on_prem_to_s3 (w : World) (environ : gmap string string)
           (source_location target_location : string) : M value :=
  let! enc_username := lift (getitem environ "AD_username") in
  let! enc_password := lift (getitem environ "AD_key") in
  let! creds := decrypt_KMS_credentials w enc_username enc_password in
  let '(username, password) := creds in
  let domain := "XXX" in
  let local_name := "FileTransferService" in
  let server_name := "XXXX" in
  let! server_ip := lift (index (splitn "/" 2 source_location) 0) in
  let! root_folder := lift (index (splitn "/" 2 source_location) 1) in
  let! file_dir := lift (index (splitn "/" 2 source_location) 2) in
  let! filename := lift (index_last (split "/" source_location)) in
  let! s3_bucket := lift (index (split "s3://" target_location) 1) in
  let! s3 := attempt (perform (Boto3Client "s3") (boto3_client w "s3")) in
  match s3 with
  | Raise _ => ret VFalse
  | Ok _ =>
      let! response :=
        perform (SmbConnect username password local_name server_name domain
                   server_ip 445)
          (smb_connect w username password server_ip 445) in
      match response with
      | VFalse => ret VFalse
      | VTrue =>
          let '(data, failure) := smb_retrieveFile w root_folder file_dir in
          let! retrieved :=
            attempt (perform (SmbRetrieveFile root_folder file_dir)
                       (match failure with
                        | Some e => Raise e
                        | None => Ok tt
                        end)) in
          let buffer := data in
          let! uploaded :=
            attempt (perform (S3UploadFileobj buffer s3_bucket filename)
                       (s3_upload_fileobj w buffer s3_bucket filename)) in
          ret VTrue
      | _ => ret VFalse
      end
  end.

Definition _move_s3_to_on_prem (source_location target_location : string)
  : M value :=
  ret VExceptionClass.

(** The four branches of the [if]/[elif] chain in [move_files]. *)
Inductive executor :=
| move_s3_to_s3
| move_s3_to_on_prem
| move_on_prem_to_on_prem
| move_on_prem_to_s3.

Definition select_executor (source_type target_type : string) : option executor :=
  if bool_decide (source_type = "s3") && bool_decide (target_type = "s3")
  then Some move_s3_to_s3
  else if bool_decide (source_type = "s3") && bool_decide (target_type = "on-prem")
  then Some move_s3_to_on_prem
  else if bool_decide (source_type = "on-prem") && bool_decide (target_type = "on-prem")
  then Some move_on_prem_to_on_prem
  else if bool_decide (source_type = "on-prem") && bool_decide (target_type = "s3")
  then Some move_on_prem_to_s3
  else None.

Definition run_executor (ex : executor) (w : World) (environ : gmap string string)
           (source_location target_location : string) : M value :=
  match ex with
  | move_s3_to_s3 => _move_s3_to_s3 w source_location target_location
  | move_s3_to_on_prem => _move_s3_to_on_prem source_location target_location
  | move_on_prem_to_on_prem => _move_on_prem_to_on_prem source_location target_location
  | move_on_prem_to_s3 => _move_on_prem_to_s3 w environ source_location target_location
  end.

(** The value of the call in the taken branch is dropped; the function
    falls off its end and so returns [None]. *)
Definition move_files (w : World) (environ : gmap string string)
           (source_location target_location : string) : M value :=
  let! source_type := lift (identify_location_type source_location) in
  let! target_type := lift (identify_location_type target_location) in
  match select_executor source_type target_type with
  | Some ex =>
      let! result := run_executor ex w environ source_location target_location in
      ret VNone
  | None => ret VNone
  end.

End file_transfer.

(** ** handler.py *)

Module handler.

(** What a module-level name of [handler.py] is bound to. *)
Inductive object :=
| PyModule
| PyClass
| PyFunction
| PyInstance
| PyStr.

(** The names bound at module level: the imports, the three module
    variables and the three functions.  (A name missing here is looked up
    among the builtins next; the one name this development looks up is no
    builtin.) *)
Definition globals : gmap string object :=
  list_to_map
    [("boto3", PyModule); ("os", PyModule); ("datetime", PyClass);
     ("logging", PyModule); ("b64decode", PyFunction);
     ("file_transfer", PyModule); ("region", PyStr); ("ec2", PyInstance);
     ("logger", PyInstance);
     ("create_s3_onprem_bootstrap_script", PyFunction);
     ("create_EC2", PyFunction); ("lambda_handler", PyFunction)].

Definition load_global (name : string) : result object :=
  match globals !! name with
  | Some o => Ok o
  | None => Raise (NameError name)
  end.

(** [o[a, b]]: none of the bound objects can be subscripted by a pair. *)
Definition subscript (o : object) (key : string * string)
  : result (string * string) :=
  Raise TypeError.

Definition dq : string := String "034"%char "".

Definition unlines (ls : list string) : string :=
  String.concat (String nl "") ls.

(** The f-string of [create_s3_onprem_bootstrap_script], line by line. *)
Definition bash_bootstrap_script
           (username password source_location target_location python_handler : string)
  : string :=
  unlines
    [ "";
      "    #!/bin/bash ";
      "    sudo su;";
      "    ";
      "    # Create mounted directory";
      "    mounted_directory=/mnt/drive;";
      "    mkdir $mounted_directory;";
      "    cd $mounted_directory;";
      "    echo " +:+ dq +:+ "//" +:+ target_location
        +:+ "  $mounted_directory  cifs  username=" +:+ username
        +:+ ",password=" +:+ password
        +:+ ",dir_mode=0777,file_mode=0777,noperm  0  0" +:+ dq
        +:+ " >> /etc/fstab;";
      "    mount -a;";
      "    ";
      "    #Update to Python3";
      "    yum install python36 -y;";
      "    pip install -r requirements.txt;";
      "";
      "    #Create log file";
      "    mkdir /log;";
      "    filename=`date " +:+ dq +:+ "+%Y%m%d-%H%M" +:+ dq +:+ "`_log.out;";
      "    echo `date` > /log/$filename;";
      "    ";
      "    #Execute file transfer";
      "    #python3 " +:+ python_handler +:+ " --source " +:+ source_location
        +:+ " --target $mounted_directory > /log/$filename;";
      "    aws s3 cp /log/$filename s3://bucket-test/ec2-log/;";
      "    ";
      "    #Self-terminate";
      "    shutdown -h now;";
      "    " ].

(** The first statement looks up the bare name [decrypt_KMS_credentials]
    in this module and subscripts it with the pair of environment
    values. *)
Definition create_s3_onprem_bootstrap_script (environ : gmap string string)
           (source_location target_location python_handler : string)
  : result string :=
  let* f := load_global "decrypt_KMS_credentials" in
  let* enc_username := getitem environ "AD_username" in
  let* enc_password := getitem environ "AD_key" in
  let* creds := subscript f (enc_username, enc_password) in
  let '(username, password) := creds in
  Ok (bash_bootstrap_script username password source_location target_location
        python_handler).

Definition create_EC2 (w : World) (environ : gmap string string)
           (source_location target_location python_handler : string) : M string :=
  let! userdata :=
    lift (create_s3_onprem_bootstrap_script environ source_location
            target_location python_handler) in
  let! key_name := lift (getitem environ "EC2_PEM_KEY") in
  let! instance_type := lift (getitem environ "EC2_INSTANCE_TYPE") in
  let! security_group := lift (getitem environ "SECURITY_GROUP") in
  let! subnet := lift (getitem environ "VPC_SUBNET") in
  let req :=
    {| ImageId := "ami-07cc15c3ba6f8e287";
       IamInstanceProfile := "nonprod-dataanalytics-filescheduler-ec2";
       InstanceInitiatedShutdownBehavior := "terminate";
       MinCount := 1;
       MaxCount := 1;
       KeyName := key_name;
       InstanceType := instance_type;
       SecurityGroupIds := [security_group];
       SubnetId := subnet;
       UserData := userdata;
       Tags := [("Name", "nonprod-dataanalytics-filescheduler-ec2-" +:+ now w);
                ("squad", "ninja");
                ("platform", "dataanalytics")] |} in
  let! instances := perform (Ec2RunInstances req) (ec2_run_instances w req) in
  let! ec2_id := lift (index instances 0) in
  ret ec2_id.

Record response := {
  statusCode : nat;
  body : string
}.

Definition lambda_handler (w : World) (environ : gmap string string)
           (event : gmap string string) : M response :=
  let! target_location := lift (getitem event "target_location") in
  let! target_type := lift (file_transfer.identify_location_type target_location) in
  let! source_location := lift (getitem event "source_location") in
  let! source_type := lift (file_transfer.identify_location_type source_location) in
  let! python_handler := lift (getitem environ "PYTHON_HANDLER") in
  let message := "" in
  let! message :=
    if bool_decide (source_type = "s3") && bool_decide (target_type = "s3")
    then ret (message +:+ "AWS transfer only - not required.")
    else if bool_decide (source_type = "on-prem") || bool_decide (target_type = "on-prem")
    then
      let! ec2_id := create_EC2 w environ source_location target_location
                       python_handler in
      ret ("EC2 file transfer spun up. instance id is " +:+ ec2_id)
    else ret message in
  ret {| statusCode := 200; body := "File transfer started. " +:+ message |}.

End handler.

(** ** Notions the specification speaks of *)

Module Spec.
Import file_transfer.

Inductive LocationKind :=
| ObjectStore
| OnPrem.

(** The string a kind is represented by in the code. *)
Definition kind_tag (k : LocationKind) : string :=
  match k with
  | ObjectStore => "s3"
  | OnPrem => "on-prem"
  end.

(** [marker] occurs somewhere in [s]. *)
Definition contains (marker s : string) : Prop :=
  exists pre post, s = pre +:+ marker +:+ post.

(** [c] occurs in [s]. *)
Fixpoint has_char (c : ascii) (s : string) : bool :=
  match s with
  | EmptyString => false
  | String x s' => bool_decide (x = c) || has_char c s'
  end.

Definition is_digit (c : ascii) : bool :=
  (48 <=? nat_of_ascii c) && (nat_of_ascii c <=? 57).

Fixpoint all_digits (s : string) : bool :=
  match s with
  | EmptyString => true
  | String c s' => is_digit c && all_digits s'
  end.

Fixpoint decimal (acc : nat) (s : string) : nat :=
  match s with
  | EmptyString => acc
  | String c s' => decimal (10 * acc + (nat_of_ascii c - 48)) s'
  end.

(** One to three decimal digits that denote a number in 0..255. *)
Definition octet (s : string) : bool :=
  (1 <=? String.length s) && (String.length s <=? 3)
  && all_digits s && (decimal 0 s <=? 255).

(** Dotted-decimal IPv4 address: four octets separated by dots. *)
Definition ipv4 (s : string) : Prop :=
  exists a b c d,
    s = a +:+ "." +:+ b +:+ "." +:+ c +:+ "." +:+ d
    /\ octet a = true /\ octet b = true /\ octet c = true /\ octet d = true.

(** Four dot-separated parts followed by [rest]. *)
Definition dotted (a b c d rest : string) : string :=
  a +:+ String "." (b +:+ String "." (c +:+ String "." (d +:+ rest))).

(** The strategy table of the selector. *)
Definition strategy (source target : LocationKind) : executor :=
  match source, target with
  | ObjectStore, ObjectStore => move_s3_to_s3
  | ObjectStore, OnPrem => move_s3_to_on_prem
  | OnPrem, ObjectStore => move_on_prem_to_s3
  | OnPrem, OnPrem => move_on_prem_to_on_prem
  end.

Definition kinds : list LocationKind := [ObjectStore; OnPrem].

(** [seg] is the part of [s] before its first [/]. *)
Definition first_segment_of (s seg : string) : Prop :=
  has_char "/" seg = false
  /\ (s = seg \/ exists rest, s = seg +:+ "/" +:+ rest).

End Spec.

(** ** Concrete environments used to exercise the code *)

Module Fixtures.

(** Every collaborator answers successfully. *)
Definition calm : World :=
  {| kms_decrypt := fun c => Ok ("plain:" +:+ c);
     boto3_client := fun _ => Ok tt;
     s3_mv := fun _ _ => Ok tt;
     smb_connect := fun _ _ _ _ => Ok VTrue;
     smb_retrieveFile := fun _ _ => ("payload", None);
     s3_upload_fileobj := fun _ _ _ => Ok tt;
     ec2_run_instances := fun _ => Ok ["i-0123456789abcdef0"];
     now := "2020-01-01 00:00:00.000000" |}.

(** The SMB server accepts the connection; reading the file fails before
    any byte arrives. *)
Definition retrieval_fails : World :=
  {| kms_decrypt := kms_decrypt calm;
     boto3_client := boto3_client calm;
     s3_mv := s3_mv calm;
     smb_connect := smb_connect calm;
     smb_retrieveFile := fun _ _ => ("", Some (External "OperationFailure"));
     s3_upload_fileobj := s3_upload_fileobj calm;
     ec2_run_instances := ec2_run_instances calm;
     now := now calm |}.

(** As before, but the file is read and the upload is refused. *)
Definition upload_fails : World :=
  {| kms_decrypt := kms_decrypt calm;
     boto3_client := boto3_client calm;
     s3_mv := s3_mv calm;
     smb_connect := smb_connect calm;
     smb_retrieveFile := smb_retrieveFile calm;
     s3_upload_fileobj := fun _ _ _ => Raise (External "ClientError");
     ec2_run_instances := ec2_run_instances calm;
     now := now calm |}.

(** Launching an instance is refused. *)
Definition launch_fails : World :=
  {| kms_decrypt := kms_decrypt calm;
     boto3_client := boto3_client calm;
     s3_mv := s3_mv calm;
     smb_connect := smb_connect calm;
     smb_retrieveFile := smb_retrieveFile calm;
     s3_upload_fileobj := s3_upload_fileobj calm;
     ec2_run_instances := fun _ => Raise (External "ClientError");
     now := now calm |}.

(** A complete set of environment variables. *)
Definition environ : gmap string string :=
  list_to_map
    [("AD_username", "dXNlcg=="); ("AD_key", "c2VjcmV0");
     ("PYTHON_HANDLER", "file_transfer.py"); ("EC2_PEM_KEY", "key");
     ("EC2_INSTANCE_TYPE", "t2.micro"); ("SECURITY_GROUP", "sg-1");
     ("VPC_SUBNET", "subnet-1")].

(** The event of the stand-alone run at the end of [handler.py]. *)
Definition event : gmap string string :=
  list_to_map
    [("source_location", "s3://bucket-test");
     ("target_location", "10.10.10.100/Matillion_Output")].

Definition store_event : gmap string string :=
  list_to_map
    [("source_location", "s3://bucket-a/in.csv");
     ("target_location", "s3://bucket-b/out.csv")].

End Fixtures.

(** ** The stand-alone entry of file_transfer.py *)

Module file_transfer_main.
Import file_transfer.

(** What [parse_args] hands back: a flag that was not given is [None]. *)
Record namespace := {
  source : option string;
  target : option string
}.

Definition usage : string :=
  "Please provide source and target as --source [source] and --target [target].".

(** [inl msg] stands for [raise SystemExit(msg)], [inr m] for the run of
    [move_files].  In [args.source and args.target] a flag counts when it
    is neither [None] nor the empty string. *)
Definition main (w : World) (environ : gmap string string) (args : namespace)
  : string + M value :=
  match source args with
  | Some source_location =>
      if bool_decide (source_location = "") then inl usage
      else
        match target args with
        | Some target_location =>
            if bool_decide (target_location = "") then inl usage
            else inr (move_files w environ source_location target_location)
        | None => inl usage
        end
  | None => inl usage
  end.

End file_transfer_main.

(** ** Paths and further environments *)

Module Paths.
Import Spec.

(** [file] is the slash-free name that ends [path]. *)
Definition names (path file : string) : Prop :=
  has_char "/" file = false
  /\ (path = file \/ exists dir, path = dir +:+ "/" +:+ file).

(** The SMB server refuses the connection. *)
Definition refusing : World :=
  {| kms_decrypt := kms_decrypt Fixtures.calm;
     boto3_client := boto3_client Fixtures.calm;
     s3_mv := s3_mv Fixtures.calm;
     smb_connect := fun _ _ _ _ => Ok VFalse;
     smb_retrieveFile := smb_retrieveFile Fixtures.calm;
     s3_upload_fileobj := s3_upload_fileobj Fixtures.calm;
     ec2_run_instances := ec2_run_instances Fixtures.calm;
     now := now Fixtures.calm |}.

(** No S3 client can be created and [s3.mv] fails. *)
Definition no_store : World :=
  {| kms_decrypt := kms_decrypt Fixtures.calm;
     boto3_client := fun _ => Raise (External "NoCredentialsError");
     s3_mv := fun _ _ => Raise (External "AttributeError");
     smb_connect := smb_connect Fixtures.calm;
     smb_retrieveFile := smb_retrieveFile Fixtures.calm;
     s3_upload_fileobj := s3_upload_fileobj Fixtures.calm;
     ec2_run_instances := ec2_run_instances Fixtures.calm;
     now := now Fixtures.calm |}.

End Paths.

(** ** Credentials in the bootstrap script *)

Module Secrets.
Import Spec.



End Secrets.

Import Re file_transfer handler Spec.

#[local] Arguments String.append !_ _ / : simpl nomatch.

(** * Properties *)

(** ** Strings *)

Section Strings.

Lemma app_assoc_s (a b c : string) : (a +:+ b) +:+ c = a +:+ b +:+ c.
Proof. induction a as [|x a IH]; simpl; [done | by rewrite IH]. Qed.

Lemma app_empty_r (a : string) : a +:+ "" = a.
Proof. induction a as [|x a IH]; simpl; [done | by rewrite IH]. Qed.

Lemma prefix_spec (p s : string) :
  String.prefix p s = true <-> exists t, s = p +:+ t.
Proof.
  revert s. induction p as [|x p IH]; intros s.
  - split; [intros _; exists s; reflexivity | by destruct s].
  - destruct s as [|y s]; simpl; [split; [done | by intros [t Ht]] |].
    destruct (ascii_dec x y) as [->|Hne].
    + rewrite IH. split; intros [t Ht]; exists t; congruence.
    + split; [done | intros [t Ht]; congruence].
Qed.

Lemma str_in_spec (sub s : string) : str_in sub s = true <-> contains sub s.
Proof.
  induction s as [|x s IH].
  - change (str_in sub "") with (String.prefix sub "" || false).
    rewrite orb_false_r, prefix_spec. split.
    + intros [t Ht]. by exists "", t.
    + intros ([|y pre] & post & H); simpl in H; [by exists post | done].
  - change (str_in sub (String x s))
      with (String.prefix sub (String x s) || str_in sub s).
    rewrite orb_true_iff, IH, prefix_spec. split.
    + intros [[t Ht] | (pre & post & H)].
      * by exists "", t.
      * exists (String x pre), post. simpl. by rewrite H.
    + intros ([|y pre] & post & H); simpl in H.
      * left. by exists post.
      * right. exists pre, post. congruence.
Qed.

Lemma str_in_false (sub s : string) : str_in sub s = false <-> ~ contains sub s.
Proof. rewrite <- str_in_spec. destruct (str_in sub s); split; intros H; congruence || (intros ?; congruence) || done. Qed.

End Strings.

(** ** Splitting at a single character *)

Section Split.

Lemma prefix_empty (s : string) : String.prefix "" s = true.
Proof. by destruct s. Qed.

Lemma split_char_cons (c x : ascii) (s : string) :
  split (String c "") (String x s)
  = if bool_decide (x = c) then "" :: split (String c "") s
    else push_char x (split (String c "") s).
Proof.
  unfold split. simpl. rewrite prefix_empty.
  destruct (ascii_dec c x) as [->|Hne].
  - by rewrite bool_decide_true.
  - by rewrite bool_decide_false by congruence.
Qed.

Lemma split_char_segment (c : ascii) (seg rest : string) :
  has_char c seg = false ->
  split (String c "") (seg +:+ String c rest) = seg :: split (String c "") rest.
Proof.
  induction seg as [|x seg IH]; intros H.
  - simpl. rewrite split_char_cons. by rewrite bool_decide_true.
  - simpl in H. apply orb_false_iff in H as [Hx Hs].
    simpl. rewrite split_char_cons, Hx, IH by done. done.
Qed.

Lemma split_char_single (c : ascii) (seg : string) :
  has_char c seg = false -> split (String c "") seg = [seg].
Proof.
  induction seg as [|x seg IH]; intros H; [done |].
  simpl in H. apply orb_false_iff in H as [Hx Hs].
  rewrite split_char_cons, Hx, IH by done. done.
Qed.

Lemma first_segment (c : ascii) (s : string) :
  exists seg, has_char c seg = false
    /\ (s = seg \/ exists rest, s = seg +:+ String c rest).
Proof.
  induction s as [|x s (seg & Hseg & IH)]; [exists ""; auto |].
  destruct (decide (x = c)) as [->|Hne].
  - exists "". split; [done |]. right. by exists s.
  - exists (String x seg). split.
    + simpl. by rewrite bool_decide_false, Hseg.
    + destruct IH as [->|(rest & ->)]; [by left | right; by exists rest].
Qed.

Lemma has_char_contains (c : ascii) (s : string) :
  has_char c s = true <-> contains (String c "") s.
Proof.
  rewrite <- str_in_spec. induction s as [|x s IH]; [done |].
  change (str_in (String c "") (String x s))
    with (String.prefix (String c "") (String x s) || str_in (String c "") s).
  rewrite !orb_true_iff, <- IH. simpl. rewrite prefix_empty.
  destruct (ascii_dec c x) as [->|Hne].
  - rewrite bool_decide_true by done. simpl. tauto.
  - rewrite bool_decide_false by congruence. simpl. intuition congruence.
Qed.

End Split.

(** ** The matcher computes its relational semantics *)

Section Matcher.

Lemma rep_run (r : regex) (n : nat) (p : pos) (k : pos -> bool) :
  run (Repeat n r) p k
  = match n with
    | O => k p
    | S n' => run r p (fun q => run (Repeat n' r) q k)
    end.
Proof. by destruct n. Qed.

Lemma run_sem (r : regex) :
  forall p k, run r p k = true <-> exists q, sem r p q /\ k q = true.
Proof.
  induction r as [c|items|r1 IH1 r2 IH2|r1 IH1 r2 IH2|r1 IH1|n r1 IH1| |];
    intros [off s] k.
  - simpl. destruct s as [|x rest].
    + split; [done | by intros (q & (rest & ? & _) & _)].
    + rewrite andb_true_iff, bool_decide_eq_true. split.
      * intros [-> Hk]. exists (S off, rest). eauto.
      * intros (q & (rest' & [= -> ->] & ->) & Hk). done.
  - simpl. destruct s as [|x rest].
    + split; [done | by intros (q & (? & ? & ? & _) & _)].
    + rewrite andb_true_iff. split.
      * intros [Hc Hk]. exists (S off, rest). eauto 10.
      * intros (q & (x' & rest' & [= -> ->] & Hc & ->) & Hk). done.
  - simpl. rewrite IH1. split.
    + intros (m & H1 & H2). apply IH2 in H2 as (q & H2 & Hk). eauto.
    + intros (q & (m & H1 & H2) & Hk). exists m. split; [done |].
      apply IH2. eauto.
  - simpl. rewrite orb_true_iff, IH1, IH2. firstorder.
  - simpl. rewrite orb_true_iff, IH1. firstorder congruence.
  - revert off s k. induction n as [|n IHn]; intros off s k; rewrite rep_run.
    + simpl. firstorder congruence.
    + rewrite IH1. split.
      * intros ([off' s'] & H1 & H2). apply IHn in H2 as (q & H2 & Hk).
        exists q. split; [|done]. simpl. eauto.
      * intros (q & (m & H1 & H2) & Hk). exists m. split; [done |].
        destruct m as [off' s']. apply IHn. eauto.
  - simpl. rewrite andb_true_iff, bool_decide_eq_true. firstorder congruence.
  - simpl. destruct s as [|x [|y rest]].
    + firstorder congruence.
    + rewrite andb_true_iff, bool_decide_eq_true. unfold nl. firstorder congruence.
    + split; [done |]. intros (q & ([?|?] & _) & _); done.
Qed.

Lemma search_from_bol (r : regex) (off : nat) (s : string) :
  search_from (Seq Bol r) (S off) s = false.
Proof.
  revert off. induction s as [|x s IH]; intros off; simpl.
  - done.
  - by rewrite IH.
Qed.

Lemma search_bol (r : regex) (s : string) :
  search (Seq Bol r) s = run r (0, s) (fun _ => true).
Proof.
  unfold search. destruct s as [|x s]; simpl.
  - by rewrite orb_false_r.
  - by rewrite search_from_bol, orb_false_r.
Qed.

End Matcher.

(** ** The octet pattern accepts exactly the numerals of 0..255 *)

Section Octet.

Ltac codes :=
  repeat match goal with
    | H : context [nat_of_ascii (Ascii ?a ?b ?c ?d ?e ?f ?g ?h)] |- _ =>
        let v := eval vm_compute in (nat_of_ascii (Ascii a b c d e f g h)) in
        change (nat_of_ascii (Ascii a b c d e f g h)) with v in H
    | |- context [nat_of_ascii (Ascii ?a ?b ?c ?d ?e ?f ?g ?h)] =>
        let v := eval vm_compute in (nat_of_ascii (Ascii a b c d e f g h)) in
        change (nat_of_ascii (Ascii a b c d e f g h)) with v
    end.

Lemma ascii_of_code (a : ascii) (n : nat) : nat_of_ascii a = n -> a = ascii_of_nat n.
Proof. intros <-. by rewrite ascii_nat_embedding. Qed.

Lemma rng_match (x lo hi : ascii) :
  class_match x [Rng lo hi] = true
  <-> nat_of_ascii lo <= nat_of_ascii x <= nat_of_ascii hi.
Proof.
  unfold class_match. simpl.
  rewrite orb_false_r, andb_true_iff, !Nat.leb_le. done.
Qed.

Lemma zero_one_match (x : ascii) :
  class_match x [One "0"; One "1"] = true
  <-> nat_of_ascii x = 48 \/ nat_of_ascii x = 49.
Proof.
  unfold class_match. simpl.
  rewrite orb_false_r, orb_true_iff, !bool_decide_eq_true. split.
  - intros [->| ->]; auto.
  - intros [H|H]; apply ascii_of_code in H; auto.
Qed.

Lemma is_digit_code (x : ascii) :
  is_digit x = true <-> 48 <= nat_of_ascii x <= 57.
Proof. unfold is_digit. rewrite andb_true_iff, !Nat.leb_le. done. Qed.

Lemma octet_1 (x : ascii) :
  octet (String x "") = true <-> 48 <= nat_of_ascii x <= 57.
Proof.
  unfold octet. simpl.
  rewrite !andb_true_iff, is_digit_code, Nat.leb_le. lia.
Qed.

Lemma octet_2 (x y : ascii) :
  octet (String x (String y "")) = true
  <-> 48 <= nat_of_ascii x <= 57 /\ 48 <= nat_of_ascii y <= 57.
Proof.
  unfold octet. simpl.
  rewrite !andb_true_iff, !is_digit_code, Nat.leb_le. lia.
Qed.

Lemma octet_3 (x y z : ascii) :
  octet (String x (String y (String z ""))) = true
  <-> 48 <= nat_of_ascii x <= 57 /\ 48 <= nat_of_ascii y <= 57
      /\ 48 <= nat_of_ascii z <= 57
      /\ 100 * (nat_of_ascii x - 48) + 10 * (nat_of_ascii y - 48)
         + (nat_of_ascii z - 48) <= 255.
Proof.
  unfold octet. simpl.
  rewrite !andb_true_iff, !is_digit_code, Nat.leb_le. lia.
Qed.

Lemma octet_length (o : string) :
  octet o = true -> 1 <= String.length o <= 3.
Proof.
  unfold octet. rewrite !andb_true_iff, !Nat.leb_le. lia.
Qed.

Lemma lit_sem (c : ascii) (p q : pos) :
  sem (Lit c) p q <-> p.2 = String c q.2 /\ q.1 = S p.1.
Proof.
  destruct p as [off s], q as [off' s']. simpl. split.
  - intros (rest & -> & [= -> ->]). done.
  - intros [-> ->]. eauto.
Qed.

Lemma rng_sem (lo hi : ascii) (p q : pos) :
  sem (Class [Rng lo hi]) p q
  <-> exists x, p.2 = String x q.2 /\ q.1 = S p.1
        /\ nat_of_ascii lo <= nat_of_ascii x <= nat_of_ascii hi.
Proof.
  destruct p as [off s], q as [off' s'].
  change (sem (Class [Rng lo hi]) (off, s) (off', s'))
    with (exists x rest, s = String x rest
            /\ class_match x [Rng lo hi] = true /\ (off', s') = (S off, rest)).
  simpl. split.
  - intros (x & rest & -> & Hc & [= -> ->]). apply rng_match in Hc. eauto.
  - intros (x & -> & -> & Hc). apply rng_match in Hc. eauto 10.
Qed.

Lemma octet_re_sound (p q : pos) :
  sem octet_re p q ->
  exists o, octet o = true /\ p.2 = o +:+ q.2 /\ q.1 = p.1 + String.length o.
Proof.
  destruct p as [off s], q as [off' s']. unfold octet_re, digit.
  intros [H|[H|H]].
  - destruct H as (m1 & H1 & m2 & H2 & H3).
    apply lit_sem in H1 as [E1 O1], H2 as [E2 O2].
    apply rng_sem in H3 as (x & E3 & O3 & Hx). simpl in *.
    exists (String "2" (String "5" (String x ""))).
    rewrite octet_3. codes. simpl. split_and!; [lia.. | congruence | lia].
  - destruct H as (m1 & H1 & m2 & H2 & H3).
    apply lit_sem in H1 as [E1 O1].
    apply rng_sem in H2 as (x & E2 & O2 & Hx).
    apply rng_sem in H3 as (y & E3 & O3 & Hy). simpl in *.
    exists (String "2" (String x (String y ""))).
    rewrite octet_3. codes. simpl. split_and!; [lia.. | congruence | lia].
  - destruct H as (m1 & H1 & m2 & H2 & H3).
    apply rng_sem in H2 as (y & E2 & O2 & Hy). simpl in Hy.
    destruct H1 as [H1| ->], H3 as [H3| ->].
    + destruct H1 as (x & rest & E1 & Hx & ->). apply zero_one_match in Hx.
      apply rng_sem in H3 as (z & E3 & O3 & Hz). simpl in *.
      exists (String x (String y (String z ""))).
      rewrite octet_3. codes. simpl. split_and!; [lia.. | congruence | lia].
    + destruct H1 as (x & rest & E1 & Hx & ->). apply zero_one_match in Hx.
      simpl in *. exists (String x (String y "")).
      rewrite octet_2. codes. simpl. split_and!; [lia.. | congruence | lia].
    + apply rng_sem in H3 as (z & E3 & O3 & Hz). simpl in *.
      exists (String y (String z "")).
      rewrite octet_2. codes. simpl. split_and!; [lia.. | congruence | lia].
    + simpl in *. exists (String y "").
      rewrite octet_1. codes. simpl. split_and!; [lia.. | congruence | lia].
Qed.

Lemma octet_re_complete (o : string) (off : nat) (rest : string) :
  octet o = true ->
  sem octet_re (off, o +:+ rest) (off + String.length o, rest).
Proof.
  intros Ho. pose proof (octet_length o Ho) as Hlen.
  destruct o as [|x [|y [|z [|]]]]; simpl in Hlen; try lia; clear Hlen.
  - apply octet_1 in Ho. right. right.
    exists (off, String x rest). split; [by right |].
    exists (S off, rest). split; [|right; f_equal; simpl; lia].
    apply rng_sem. exists x. simpl. codes. split_and!; [done.. | lia | lia].
  - apply octet_2 in Ho as [Hx Hy]. right. right.
    exists (off, String x (String y rest)). split; [by right |].
    exists (S off, String y rest). split.
    + apply rng_sem. exists x. simpl. codes. split_and!; [done.. | lia | lia].
    + left. apply rng_sem. exists y. simpl. codes. split_and!; [done | lia | lia | lia].
  - apply octet_3 in Ho as (Hx & Hy & Hz & Hv).
    destruct (decide (nat_of_ascii x <= 49)) as [Hx1|Hx1].
    + right. right.
      exists (S off, String y (String z rest)). split.
      { left. exists x, (String y (String z rest)).
        split_and!; [done | apply zero_one_match; lia | done]. }
      exists (S (S off), String z rest). split.
      * apply rng_sem. exists y. simpl. codes. split_and!; [done.. | lia | lia].
      * left. apply rng_sem. exists z. simpl. codes. split_and!; [done | lia | lia | lia].
    + assert (x = "2"%char) as -> by (apply (ascii_of_code x 50); lia).
      simpl in Hv.
      destruct (decide (nat_of_ascii y <= 52)) as [Hy4|Hy4].
      * right. left.
        exists (S off, String y (String z rest)). split; [by apply lit_sem |].
        exists (S (S off), String z rest). split.
        -- apply rng_sem. exists y. simpl. codes. split_and!; [done.. | lia | lia].
        -- apply rng_sem. exists z. simpl. codes. split_and!; [done | lia | lia | lia].
      * assert (y = "5"%char) as -> by (apply (ascii_of_code y 53); lia).
        simpl in Hv. left.
        exists (S off, String "5" (String z rest)). split; [by apply lit_sem |].
        exists (S (S off), String z rest). split; [by apply lit_sem |].
        apply rng_sem. exists z. simpl. codes. split_and!; [done | lia | lia | lia].
Qed.

End Octet.

(** ** The address pattern *)

Section Address.

Lemma octet_dot_sem (p q : pos) :
  sem (Seq octet_re (Lit ".")) p q
  <-> exists o, octet o = true /\ p.2 = o +:+ String "." q.2
        /\ q.1 = S (p.1 + String.length o).
Proof.
  split.
  - intros (m & Ho & Hd). apply octet_re_sound in Ho as (o & Ho & E & O).
    apply lit_sem in Hd as [Ed Od]. exists o. split_and!; [done | congruence | lia].
  - intros (o & Ho & E & O). destruct p as [off s], q as [off' s']. simpl in *.
    subst. exists (off + String.length o, String "." s'). split.
    + by apply octet_re_complete.
    + by apply lit_sem.
Qed.

Lemma dotted_empty (a b c d : string) :
  dotted a b c d "" = a +:+ "." +:+ b +:+ "." +:+ c +:+ "." +:+ d.
Proof. unfold dotted. by rewrite app_empty_r. Qed.

Lemma dotted_app (a b c d rest : string) :
  dotted a b c d rest = dotted a b c d "" +:+ rest.
Proof.
  unfold dotted. rewrite app_empty_r.
  rewrite !app_assoc_s. simpl. rewrite !app_assoc_s. simpl.
  by rewrite !app_assoc_s.
Qed.

Lemma octet_dot_step (o : string) (off : nat) (rest : string) :
  octet o = true ->
  sem (Seq octet_re (Lit ".")) (off, o +:+ String "." rest)
    (S (off + String.length o), rest).
Proof. intros Ho. apply octet_dot_sem. exists o. done. Qed.

Lemma address_sem (s rest : string) :
  (exists off, sem (Seq (Repeat 3 (Seq octet_re (Lit "."))) octet_re) (0, s) (off, rest))
  <-> exists a b c d,
        octet a = true /\ octet b = true /\ octet c = true /\ octet d = true
        /\ s = dotted a b c d rest.
Proof.
  split.
  - intros (off & m & (m1 & H1 & m2 & H2 & m3 & H3 & ->) & H4).
    apply octet_dot_sem in H1 as (a & Ha & E1 & _).
    apply octet_dot_sem in H2 as (b & Hb & E2 & _).
    apply octet_dot_sem in H3 as (c & Hc & E3 & _).
    apply octet_re_sound in H4 as (d & Hd & E4 & _).
    exists a, b, c, d. split_and!; try done.
    unfold dotted. simpl in E1, E4. congruence.
  - intros (a & b & c & d & Ha & Hb & Hc & Hd & ->). unfold dotted.
    eexists. eexists. split.
    + eexists. split; [by apply octet_dot_step |].
      eexists. split; [by apply octet_dot_step |].
      eexists. split; [by apply octet_dot_step |].
      reflexivity.
    + by apply octet_re_complete.
Qed.

(** [re.search] with the address pattern succeeds on an address and on an
    address followed by one newline, and on nothing else. *)
Lemma search_ipv4_re (s : string) :
  search ipv4_re s = true
  <-> ipv4 s \/ exists s0, s = s0 +:+ String nl "" /\ ipv4 s0.
Proof.
  unfold ipv4_re. rewrite search_bol, run_sem. split.
  - intros ([off rest] & (m & H3 & [off' rest'] & H4 & [He [= <- <-]]) & _).
    assert (exists a b c d,
      octet a = true /\ octet b = true /\ octet c = true /\ octet d = true
      /\ s = dotted a b c d rest) as (a & b & c & d & Ha & Hb & Hc & Hd & ->).
    { apply address_sem. exists off, m. done. }
    simpl in He. destruct He as [-> | ->].
    + left. exists a, b, c, d. by rewrite dotted_empty.
    + right. exists (dotted a b c d ""). split; [apply dotted_app |].
      exists a, b, c, d. by rewrite dotted_empty.
  - assert (forall a b c d rest,
      octet a = true -> octet b = true -> octet c = true -> octet d = true ->
      rest = "" \/ rest = String nl "" ->
      exists q : pos,
        sem (Seq (Repeat 3 (Seq octet_re (Lit "."))) (Seq octet_re Eol))
          (0, dotted a b c d rest) q /\ true = true) as Hgo.
    { intros a b c d rest Ha Hb Hc Hd Hrest.
      destruct (proj2 (address_sem (dotted a b c d rest) rest)) as (off & m & H3 & H4);
        [by exists a, b, c, d |].
      exists (off, rest). split; [|done]. exists m. split; [done |].
      exists (off, rest). done. }
    intros [(a & b & c & d & -> & Ha & Hb & Hc & Hd)
           | (s0 & -> & a & b & c & d & -> & Ha & Hb & Hc & Hd)].
    + rewrite <- dotted_empty. apply Hgo; auto.
    + rewrite <- dotted_empty, <- dotted_app. apply Hgo; auto.
Qed.

Lemma octet_no_char (x : ascii) (o : string) :
  octet o = true -> is_digit x = false -> has_char x o = false.
Proof.
  unfold octet. rewrite !andb_true_iff. intros [[_ Hd] _] Hx. clear -Hd Hx.
  induction o as [|y o IH]; [done |].
  simpl in *. apply andb_true_iff in Hd as [Hy Ho].
  rewrite IH, orb_false_r by done. apply bool_decide_eq_false. congruence.
Qed.

Lemma has_char_app (x : ascii) (a b : string) :
  has_char x (a +:+ b) = has_char x a || has_char x b.
Proof.
  induction a as [|y a IH]; simpl; [done |]. by rewrite IH, orb_assoc.
Qed.

Lemma ipv4_no_slash (s : string) : ipv4 s -> has_char "/" s = false.
Proof.
  intros (a & b & c & d & -> & Ha & Hb & Hc & Hd).
  rewrite !has_char_app.
  rewrite (octet_no_char "/" a), (octet_no_char "/" b),
    (octet_no_char "/" c), (octet_no_char "/" d) by done.
  done.
Qed.

Lemma ipv4_no_newline (s : string) : ipv4 s -> has_char nl s = false.
Proof.
  intros (a & b & c & d & -> & Ha & Hb & Hc & Hd).
  rewrite !has_char_app.
  rewrite (octet_no_char nl a), (octet_no_char nl b),
    (octet_no_char nl c), (octet_no_char nl d) by done.
  done.
Qed.

End Address.

(** ** The location classifier *)

Section Classifier.

Lemma contains_has_char (marker s : string) (x : ascii) :
  contains marker s -> has_char x marker = true -> has_char x s = true.
Proof.
  intros (pre & post & ->) Hx.
  rewrite !has_char_app, Hx. by rewrite orb_true_r.
Qed.

Lemma split_nonempty (sep : string) (m : option nat) (k : nat) (s : string) :
  split_go sep m k s <> [].
Proof.
  revert m k. induction s as [|x s IH]; intros m k; simpl; [done |].
  destruct k; [|apply IH].
  destruct (_ && _); [done |].
  specialize (IH m 0). by destruct (split_go sep m 0 s).
Qed.

(** The classifier in terms of the first segment of its argument. *)
Lemma identify_location_type_unfold (s seg : string) :
  first_segment_of s seg ->
  identify_location_type s
  = if str_in "s3://" s then Ok "s3"
    else if search ipv4_re seg && has_char "/" s then Ok "on-prem"
    else Raise Exception.
Proof.
  intros [Hseg Hs]. unfold identify_location_type.
  destruct (str_in "s3://" s); [done |].
  destruct Hs as [->|(rest & ->)].
  - rewrite (split_char_single "/" seg), Hseg, andb_false_r by done. simpl.
    by destruct (search ipv4_re seg).
  - change ("/" +:+ rest) with (String "/" rest).
    rewrite (split_char_segment "/" seg rest) by done. simpl.
    rewrite has_char_app. simpl. rewrite orb_true_r, andb_true_r.
    destruct (search ipv4_re seg); [|done].
    pose proof (split_nonempty "/" None 0 rest) as Hne.
    unfold Py.index, split. simpl.
    by destruct (split_go "/" None 0 rest).
Qed.

Lemma identify_location_type_tags (s tag : string) :
  identify_location_type s = Ok tag -> tag = "s3" \/ tag = "on-prem".
Proof.
  destruct (first_segment "/" s) as (seg & Hseg).
  rewrite (identify_location_type_unfold s seg) by done.
  destruct (str_in "s3://" s); [intros [= <-]; auto |].
  destruct (_ && _); [intros [= <-]; auto | done].
Qed.

Lemma ipv4_no_marker (seg : string) : ipv4 seg -> ~ contains "s3://" seg.
Proof.
  intros Hip Hc. apply (contains_has_char _ _ "/") in Hc; [|done].
  by rewrite ipv4_no_slash in Hc.
Qed.

(** Apart from an address followed by a newline, whatever the first two
    rules of the classifier do not cover is rejected. *)
Lemma identify_location_type_rejects (s seg : string) :
  first_segment_of s seg ->
  ~ contains "s3://" s ->
  s = seg \/ (~ ipv4 seg /\ forall s0, seg = s0 +:+ String nl "" -> ~ ipv4 s0) ->
  identify_location_type s = Raise Exception.
Proof.
  intros Hfirst Hmark Hbad.
  rewrite (identify_location_type_unfold s seg) by done.
  apply str_in_false in Hmark. rewrite Hmark.
  destruct Hbad as [->|[Hno Hnl]].
  - destruct Hfirst as [-> _]. by rewrite andb_false_r.
  - destruct (search ipv4_re seg) eqn:Hre; [|done].
    apply search_ipv4_re in Hre as [Hip|(s0 & -> & Hip)]; [done |].
    by destruct (Hnl s0).
Qed.

(** C1 (as amended): a location without the marker [s3://] whose first
    segment is a dotted-decimal IPv4 address and which has a further path
    segment is classified as on-premises; an address alone, with no further
    segment, is rejected with the classifier's exception. *)
Theorem on_prem_classification (seg : string) :
  ipv4 seg ->
  (forall rest,
     ~ contains "s3://" (seg +:+ "/" +:+ rest) ->
     identify_location_type (seg +:+ "/" +:+ rest) = Ok (kind_tag OnPrem))
  /\ identify_location_type seg = Raise Exception.
Proof.
  intros Hip. pose proof (ipv4_no_slash seg Hip) as Hseg.
  assert (search ipv4_re seg = true) as Hre by (apply search_ipv4_re; auto).
  split.
  - intros rest Hmark.
    rewrite (identify_location_type_unfold _ seg) by (split; eauto).
    apply str_in_false in Hmark. rewrite Hmark, Hre, has_char_app. simpl.
    by rewrite orb_true_r.
  - apply (identify_location_type_rejects seg seg); [split; auto | | auto].
    by apply ipv4_no_marker.
Qed.

Lemma on_prem_classification_witness :
  identify_location_type "10.21.13.12/Matillion_Output/hello.csv" = Ok "on-prem"
  /\ identify_location_type "10.21.13.12" = Raise Exception.
Proof.
  assert (ipv4 "10.21.13.12") as Hip.
  { exists "10", "21", "13", "12". split_and!; reflexivity. }
  destruct (on_prem_classification "10.21.13.12" Hip) as [Hshare Hbare].
  split; [|exact Hbare].
  apply (Hshare "Matillion_Output/hello.csv").
  apply str_in_false. reflexivity.
Defined.

(** C1 as stated fails: the marker test comes first, so an address
    followed by a path that mentions [s3://] is an object-store location. *)
Lemma on_prem_classification_counterexample :
  ~ (forall seg rest,
       ipv4 seg ->
       identify_location_type (seg +:+ "/" +:+ rest) = Ok (kind_tag OnPrem)).
Proof.
  intros H. specialize (H "10.21.13.12" "s3://bucket-test").
  assert (ipv4 "10.21.13.12") as Hip.
  { exists "10", "21", "13", "12". split_and!; reflexivity. }
  specialize (H Hip). vm_compute in H. discriminate H.
Qed.

(** C2: a location that contains the marker [s3://] anywhere is classified
    as an object-store location. *)
Theorem object_store_classification (s : string) :
  contains "s3://" s ->
  identify_location_type s = Ok (kind_tag ObjectStore).
Proof.
  intros Hmark. apply str_in_spec in Hmark.
  unfold identify_location_type. by rewrite Hmark.
Qed.

Lemma object_store_classification_witness :
  identify_location_type "10.21.13.12/s3://bucket-test/hello.csv" = Ok "s3".
Proof.
  apply (object_store_classification "10.21.13.12/s3://bucket-test/hello.csv").
  exists "10.21.13.12/", "bucket-test/hello.csv". reflexivity.
Defined.

(** C3 at the failing input: the first segment ends in a newline and so is
    no IPv4 address, the marker is absent, and yet the location is
    classified as on-premises: [$] also matches before a final newline. *)
Theorem newline_segment_classified :
  let seg := "1.2.3.4" +:+ String nl "" in
  let s := seg +:+ "/share" in
  ~ contains "s3://" s
  /\ first_segment_of s seg
  /\ ~ ipv4 seg
  /\ identify_location_type s = Ok "on-prem".
Proof.
  intros seg s. split_and!.
  - apply str_in_false. reflexivity.
  - split; [reflexivity |]. right. by exists "share".
  - intros Hip. apply ipv4_no_newline in Hip. vm_compute in Hip. discriminate Hip.
  - vm_compute. reflexivity.
Qed.

End Classifier.

(** ** Strategy selection and the executors *)

Section Selection.

Example split_examples :
  split "/" "1.2.3.4/share/" = ["1.2.3.4"; "share"; ""]
  /\ split "s3://" "as3://b s3://c" = ["a"; "b "; "c"]
  /\ splitn "/" 2 "a/b/c/d" = ["a"; "b"; "c/d"]
  /\ splitn "/" 2 "a/b" = ["a"; "b"]
  /\ split "aa" "xaaay" = ["x"; "ay"]
  /\ split "/" "" = [""].
Proof. vm_compute. done. Qed.

(** On each of the four combinations of kinds the chain in [move_files]
    picks a branch, the one of the strategy table, and the four branches
    are pairwise different. *)
Lemma selection_table :
  Forall (fun source =>
    Forall (fun target =>
      select_executor (kind_tag source) (kind_tag target)
      = Some (strategy source target)) kinds) kinds
  /\ NoDup (source ← kinds; target ← kinds;
            [select_executor (kind_tag source) (kind_tag target)]).
Proof.
  split.
  - repeat constructor.
  - vm_compute.
    repeat (constructor;
            [rewrite ?elem_of_cons, ?elem_of_nil; intuition discriminate |]).
    constructor.
Qed.

(** The classifier yields no other tag, so the chain never falls through. *)
Lemma selection_covers_classifier (src tgt source_type target_type : string) :
  identify_location_type src = Ok source_type ->
  identify_location_type tgt = Ok target_type ->
  exists ex, select_executor source_type target_type = Some ex.
Proof.
  intros Hs Ht.
  apply identify_location_type_tags in Hs as [-> | ->];
    apply identify_location_type_tags in Ht as [-> | ->]; eexists; reflexivity.
Qed.

(** What [move_files] does once both locations are classified. *)
Lemma move_files_dispatch (w : World) (environ : gmap string string)
      (src tgt : string) (sk tk : LocationKind) (t : trace) :
  identify_location_type src = Ok (kind_tag sk) ->
  identify_location_type tgt = Ok (kind_tag tk) ->
  move_files w environ src tgt t
  = (let! result := run_executor (strategy sk tk) w environ src tgt in ret VNone) t.
Proof.
  intros Hs Ht. unfold move_files, bind, lift. rewrite Hs, Ht.
  by destruct sk, tk.
Qed.

(** Whatever the executor hands back, [move_files] hands back [None]. *)
Lemma move_files_returns_none (w : World) (environ : gmap string string)
      (src tgt : string) (t t' : trace) (v : value) :
  move_files w environ src tgt t = (Ok v, t') -> v = VNone.
Proof.
  unfold move_files, bind, lift, ret.
  destruct (identify_location_type src); [|done].
  destruct (identify_location_type tgt); [|done].
  destruct (select_executor _ _); [|by intros [= <- _]].
  destruct (run_executor _ _ _ _ _ _) as [[?|?] ?]; [by intros [= <- _] | done].
Qed.

(** C4: on each of the four combinations of kinds the chain in
    [move_files] picks a branch, the one of the strategy table, and the
    four branches are pairwise different; and for locations of those
    kinds [move_files] is the executor of that combination, run on the two
    locations, followed by the return of [None]: the selection adds no
    failure of its own to those of the executor. *)
Theorem strategy_selection_total :
  Forall (fun source =>
    Forall (fun target =>
      select_executor (kind_tag source) (kind_tag target)
      = Some (strategy source target)) kinds) kinds
  /\ NoDup (source ← kinds; target ← kinds;
            [select_executor (kind_tag source) (kind_tag target)])
  /\ (forall (w : World) (environ : gmap string string) (src tgt : string)
             (sk tk : LocationKind) (t : trace),
        identify_location_type src = Ok (kind_tag sk) ->
        identify_location_type tgt = Ok (kind_tag tk) ->
        move_files w environ src tgt t
        = (let! result :=
             match sk, tk with
             | ObjectStore, ObjectStore => _move_s3_to_s3 w src tgt
             | ObjectStore, OnPrem => _move_s3_to_on_prem src tgt
             | OnPrem, OnPrem => _move_on_prem_to_on_prem src tgt
             | OnPrem, ObjectStore => _move_on_prem_to_s3 w environ src tgt
             end in
           ret VNone) t).
Proof.
  destruct selection_table as [Htable Hdistinct]. split_and!; [done | done |].
  intros w environ src tgt sk tk t Hs Ht.
  rewrite (move_files_dispatch w environ src tgt sk tk) by done.
  by destruct sk, tk.
Qed.

Lemma strategy_selection_total_witness :
  move_files Fixtures.calm Fixtures.environ "s3://bucket-a/in.csv"
    "s3://bucket-b/out.csv" [] = (Raise Exception, [])
  /\ move_files Fixtures.calm Fixtures.environ "s3://bucket-test"
       "10.10.10.100/Matillion_Output" [] = (Ok VNone, [])
  /\ move_files Fixtures.calm Fixtures.environ "10.21.13.12/share/a.csv"
       "10.10.10.100/Matillion_Output" [] = (Ok VNone, [])
  /\ move_files Fixtures.calm Fixtures.environ
       "10.21.13.12/Matillion_Output/hello.csv" "s3://bucket-test" []
     = (Ok VNone,
        [KmsDecrypt "dXNlcg=="; KmsDecrypt "c2VjcmV0"; Boto3Client "s3";
         SmbConnect "plain:dXNlcg==" "plain:c2VjcmV0" "FileTransferService"
           "XXXX" "XXX" "10.21.13.12" 445;
         SmbRetrieveFile "Matillion_Output" "hello.csv";
         S3UploadFileobj "payload" "bucket-test" "hello.csv"]).
Proof.
  pose proof (proj2 (proj2 strategy_selection_total)) as Hrun.
  split_and!.
  - refine (eq_trans (Hrun Fixtures.calm Fixtures.environ "s3://bucket-a/in.csv"
                        "s3://bucket-b/out.csv" ObjectStore ObjectStore [] _ _) _);
      vm_compute; reflexivity.
  - refine (eq_trans (Hrun Fixtures.calm Fixtures.environ "s3://bucket-test"
                        "10.10.10.100/Matillion_Output" ObjectStore OnPrem [] _ _) _);
      vm_compute; reflexivity.
  - refine (eq_trans (Hrun Fixtures.calm Fixtures.environ "10.21.13.12/share/a.csv"
                        "10.10.10.100/Matillion_Output" OnPrem OnPrem [] _ _) _);
      vm_compute; reflexivity.
  - refine (eq_trans (Hrun Fixtures.calm Fixtures.environ
                        "10.21.13.12/Matillion_Output/hello.csv" "s3://bucket-test"
                        OnPrem ObjectStore [] _ _) _);
      vm_compute; reflexivity.
Defined.

(** C10: with an on-premises target, [move_files] finishes without an
    exception, returns [None] and calls no collaborator; the executor of
    either kind pair returns the class [Exception] as a value; and a result
    of [move_files], for whatever locations, is [None]. *)
Theorem stub_executors_silent (w : World) (environ : gmap string string)
        (src tgt : string) (sk : LocationKind) (t : trace) :
  identify_location_type src = Ok (kind_tag sk) ->
  identify_location_type tgt = Ok (kind_tag OnPrem) ->
  move_files w environ src tgt t = (Ok VNone, t)
  /\ _move_s3_to_on_prem src tgt t = (Ok VExceptionClass, t)
  /\ _move_on_prem_to_on_prem src tgt t = (Ok VExceptionClass, t)
  /\ (forall src' tgt' t0 v t1,
        move_files w environ src' tgt' t0 = (Ok v, t1) -> v = VNone).
Proof.
  intros Hs Ht.
  split_and!; [| done | done | intros; by eapply move_files_returns_none].
  rewrite (move_files_dispatch w environ src tgt sk OnPrem) by done.
  by destruct sk.
Qed.

Lemma stub_executors_silent_witness :
  move_files Fixtures.calm Fixtures.environ "s3://bucket-test"
    "10.10.10.100/Matillion_Output" [] = (Ok VNone, [])
  /\ _move_s3_to_on_prem "s3://bucket-test" "10.10.10.100/Matillion_Output" []
     = (Ok VExceptionClass, [])
  /\ _move_on_prem_to_on_prem "s3://bucket-test" "10.10.10.100/Matillion_Output" []
     = (Ok VExceptionClass, [])
  /\ (forall src' tgt' t0 v t1,
        move_files Fixtures.calm Fixtures.environ src' tgt' t0 = (Ok v, t1) ->
        v = VNone).
Proof.
  apply (stub_executors_silent Fixtures.calm Fixtures.environ "s3://bucket-test"
           "10.10.10.100/Matillion_Output" ObjectStore []).
  - reflexivity.
  - vm_compute. reflexivity.
Defined.

(** Once the SMB server has accepted the connection, the on-premises to
    object-store executor returns [True], whatever happens to the
    retrieval and to the upload. *)
Lemma connected_transfer_returns_true (w : World) (environ : gmap string string)
      (src tgt enc_user enc_key user key ip root dir file bucket : string)
      (t : trace) :
  environ !! "AD_username" = Some enc_user ->
  environ !! "AD_key" = Some enc_key ->
  kms_decrypt w enc_user = Ok user ->
  kms_decrypt w enc_key = Ok key ->
  splitn "/" 2 src = [ip; root; dir] ->
  last (split "/" src) = Some file ->
  split "s3://" tgt !! 1 = Some bucket ->
  boto3_client w "s3" = Ok tt ->
  smb_connect w user key ip 445 = Ok VTrue ->
  (_move_on_prem_to_s3 w environ src tgt t).1 = Ok VTrue.
Proof.
  intros Hu Hk Hdu Hdk Hsplit Hlast Hbucket Hclient Hconn.
  unfold _move_on_prem_to_s3, decrypt_KMS_credentials, bind, lift, attempt,
    perform, ret, getitem, Py.index, index_last.
  rewrite Hu, Hk, Hdu, Hdk, Hsplit, Hlast, Hbucket, Hclient. simpl.
  rewrite Hconn. by destruct (smb_retrieveFile w root dir).
Qed.

(** C7 at the failing inputs: the connection is accepted, the retrieval
    (first world) or the upload (second world) fails, and the executor
    returns [True] after uploading whatever the buffer holds. *)
Theorem failed_transfer_returns_true :
  let src := "10.21.13.12/Matillion_Output/hello.csv" in
  let tgt := "s3://bucket-test" in
  _move_on_prem_to_s3 Fixtures.retrieval_fails Fixtures.environ src tgt []
  = (Ok VTrue,
     [KmsDecrypt "dXNlcg=="; KmsDecrypt "c2VjcmV0"; Boto3Client "s3";
      SmbConnect "plain:dXNlcg==" "plain:c2VjcmV0" "FileTransferService" "XXXX"
        "XXX" "10.21.13.12" 445;
      SmbRetrieveFile "Matillion_Output" "hello.csv";
      S3UploadFileobj "" "bucket-test" "hello.csv"])
  /\ _move_on_prem_to_s3 Fixtures.upload_fails Fixtures.environ src tgt []
     = (Ok VTrue,
        [KmsDecrypt "dXNlcg=="; KmsDecrypt "c2VjcmV0"; Boto3Client "s3";
         SmbConnect "plain:dXNlcg==" "plain:c2VjcmV0" "FileTransferService" "XXXX"
           "XXX" "10.21.13.12" 445;
         SmbRetrieveFile "Matillion_Output" "hello.csv";
         S3UploadFileobj "payload" "bucket-test" "hello.csv"]).
Proof. split; vm_compute; reflexivity. Qed.

End Selection.

(** ** The bootstrap script and the dispatcher *)

Section Dispatch.

Lemma decrypt_name_unbound :
  load_global "decrypt_KMS_credentials" = Raise (NameError "decrypt_KMS_credentials").
Proof. vm_compute. reflexivity. Qed.

(** C8 at every input: the name [decrypt_KMS_credentials] is not bound in
    [handler.py], so the generator raises [NameError] on its first
    statement and hands back no script from which anything could be parsed. *)
Theorem bootstrap_script_not_generated
        (environ : gmap string string) (src tgt python_handler : string) :
  create_s3_onprem_bootstrap_script environ src tgt python_handler
  = Raise (NameError "decrypt_KMS_credentials").
Proof.
  unfold create_s3_onprem_bootstrap_script.
  by rewrite decrypt_name_unbound.
Qed.

(** The orchestrator stops in the script generator, before any request
    is sent. *)
Lemma create_EC2_stops
      (w : World) (environ : gmap string string)
      (src tgt python_handler : string) (t : trace) :
  create_EC2 w environ src tgt python_handler t
  = (Raise (NameError "decrypt_KMS_credentials"), t).
Proof.
  unfold create_EC2, bind, lift.
  unfold create_s3_onprem_bootstrap_script.
  by rewrite decrypt_name_unbound.
Qed.

(** The decryption routine is not among the names of [handler.py]; the
    orchestrator therefore ends in [NameError] with the list of requests
    unchanged: nothing is decrypted, and no script reaches the
    provisioner. *)
Lemma credentials_never_decrypted
        (w : World) (environ : gmap string string)
        (src tgt python_handler : string) (t : trace) :
  globals !! "decrypt_KMS_credentials" = None
  /\ create_EC2 w environ src tgt python_handler t
     = (Raise (NameError "decrypt_KMS_credentials"), t).
Proof. split; [vm_compute; reflexivity | apply create_EC2_stops]. Qed.

(** The store-to-store answer of the dispatcher. *)
Lemma lambda_handler_store_to_store
      (w : World) (environ event : gmap string string)
      (src tgt python_handler : string) (t : trace) :
  event !! "source_location" = Some src ->
  event !! "target_location" = Some tgt ->
  environ !! "PYTHON_HANDLER" = Some python_handler ->
  identify_location_type src = Ok (kind_tag ObjectStore) ->
  identify_location_type tgt = Ok (kind_tag ObjectStore) ->
  lambda_handler w environ event t
  = (Ok {| statusCode := 200;
           body := "File transfer started. AWS transfer only - not required." |},
     t).
Proof.
  intros Hsrc Htgt Hpy Hs Ht.
  unfold lambda_handler, bind, lift, ret, getitem.
  rewrite Htgt, Ht, Hsrc, Hs, Hpy. reflexivity.
Qed.

(** With an on-premises end the dispatcher is the orchestrator followed
    by the construction of the answer. *)
Lemma lambda_handler_delegates
      (w : World) (environ event : gmap string string)
      (src tgt python_handler : string) (sk tk : LocationKind) (t : trace) :
  event !! "source_location" = Some src ->
  event !! "target_location" = Some tgt ->
  environ !! "PYTHON_HANDLER" = Some python_handler ->
  identify_location_type src = Ok (kind_tag sk) ->
  identify_location_type tgt = Ok (kind_tag tk) ->
  sk = OnPrem \/ tk = OnPrem ->
  lambda_handler w environ event t
  = (let! ec2_id := create_EC2 w environ src tgt python_handler in
     ret {| statusCode := 200;
            body := "File transfer started. "
                    +:+ "EC2 file transfer spun up. instance id is " +:+ ec2_id |}) t.
Proof.
  intros Hsrc Htgt Hpy Hs Ht Hkind.
  unfold lambda_handler, bind, lift, ret, getitem.
  rewrite Htgt, Ht, Hsrc, Hs, Hpy.
  destruct sk, tk, Hkind; try done; simpl;
    by destruct (create_EC2 _ _ _ _ _ _) as [[?|?] ?].
Qed.

(** C5 at the failing input, the event of the stand-alone run: the target
    is on-premises, no instance is requested and the dispatcher ends in
    [NameError] instead of answering with an instance identifier. *)
Theorem delegation_raises_name_error (w : World) :
  identify_location_type "s3://bucket-test" = Ok (kind_tag ObjectStore)
  /\ identify_location_type "10.10.10.100/Matillion_Output" = Ok (kind_tag OnPrem)
  /\ lambda_handler w Fixtures.environ Fixtures.event []
     = (Raise (NameError "decrypt_KMS_credentials"), []).
Proof.
  split_and!; [reflexivity | vm_compute; reflexivity |].
  rewrite (lambda_handler_delegates w _ _ "s3://bucket-test"
             "10.10.10.100/Matillion_Output" "file_transfer.py" ObjectStore OnPrem);
    [| reflexivity | reflexivity | reflexivity | reflexivity
     | vm_compute; reflexivity | by right].
  unfold bind. by rewrite create_EC2_stops.
Qed.

(** The dispatcher has no handler of its own.  With both locations
    classified and the handler name configured, a store-to-store event is
    answered with status 200; with an on-premises end, an exception raised
    by the orchestrator leaves the dispatcher unchanged and no answer is
    built; an answer that is built always carries status 200. *)
Lemma dispatch_status
        (w : World) (environ event : gmap string string)
        (src tgt python_handler : string) (sk tk : LocationKind) (t : trace) :
  event !! "source_location" = Some src ->
  event !! "target_location" = Some tgt ->
  environ !! "PYTHON_HANDLER" = Some python_handler ->
  identify_location_type src = Ok (kind_tag sk) ->
  identify_location_type tgt = Ok (kind_tag tk) ->
  (sk = ObjectStore /\ tk = ObjectStore ->
   lambda_handler w environ event t
   = (Ok {| statusCode := 200;
            body := "File transfer started. AWS transfer only - not required." |},
      t))
  /\ (sk = OnPrem \/ tk = OnPrem ->
      forall e t',
        create_EC2 w environ src tgt python_handler t = (Raise e, t') ->
        lambda_handler w environ event t = (Raise e, t'))
  /\ (forall r t',
        lambda_handler w environ event t = (Ok r, t') -> statusCode r = 200).
Proof.
  intros Hsrc Htgt Hpy Hs Ht. split_and!.
  - intros [-> ->]. by eapply lambda_handler_store_to_store.
  - intros Hkind e t' Hec2.
    rewrite (lambda_handler_delegates w _ _ src tgt python_handler sk tk) by done.
    unfold bind. by rewrite Hec2.
  - intros r t'.
    assert ((sk = OnPrem \/ tk = OnPrem) \/ (sk = ObjectStore /\ tk = ObjectStore))
      as [Hkind|[-> ->]] by (destruct sk, tk; auto).
    + rewrite (lambda_handler_delegates w _ _ src tgt python_handler sk tk) by done.
      unfold bind, ret.
      destruct (create_EC2 _ _ _ _ _ _) as [[?|?] ?]; [|done].
      by intros [= <- _].
    + rewrite (lambda_handler_store_to_store w _ _ src tgt python_handler) by done.
      by intros [= <- _].
Qed.

Lemma dispatch_status_witness :
  lambda_handler Fixtures.launch_fails Fixtures.environ Fixtures.store_event []
  = (Ok {| statusCode := 200;
           body := "File transfer started. AWS transfer only - not required." |},
     [])
  /\ lambda_handler Fixtures.launch_fails Fixtures.environ Fixtures.event []
     = (Raise (NameError "decrypt_KMS_credentials"), []).
Proof.
  split.
  - apply (dispatch_status Fixtures.launch_fails Fixtures.environ
             Fixtures.store_event "s3://bucket-a/in.csv" "s3://bucket-b/out.csv"
             "file_transfer.py" ObjectStore ObjectStore []);
      [reflexivity .. | done].
  - apply (dispatch_status Fixtures.launch_fails Fixtures.environ
             Fixtures.event "s3://bucket-test" "10.10.10.100/Matillion_Output"
             "file_transfer.py" ObjectStore OnPrem []);
      [reflexivity | reflexivity | reflexivity | reflexivity
      | vm_compute; reflexivity | by right | apply create_EC2_stops].
Defined.

(** C6 at the failing input, the event of the stand-alone run in a world
    whose provisioner refuses every launch: the dispatcher ends in
    [NameError] and hands back no answer, hence neither the status 200 nor
    a message that tells the failure apart; the run is the very run of a
    world whose provisioner works. *)
Theorem failed_launch_not_surfaced :
  lambda_handler Fixtures.launch_fails Fixtures.environ Fixtures.event []
  = (Raise (NameError "decrypt_KMS_credentials"), [])
  /\ lambda_handler Fixtures.launch_fails Fixtures.environ Fixtures.event []
     = lambda_handler Fixtures.calm Fixtures.environ Fixtures.event [].
Proof.
  assert (forall w,
    lambda_handler w Fixtures.environ Fixtures.event []
    = (Raise (NameError "decrypt_KMS_credentials"), [])) as Hrun.
  { intros w.
    rewrite (lambda_handler_delegates w _ _ "s3://bucket-test"
               "10.10.10.100/Matillion_Output" "file_transfer.py"
               ObjectStore OnPrem);
      [| reflexivity | reflexivity | reflexivity | reflexivity
       | vm_compute; reflexivity | by right].
    unfold bind. by rewrite create_EC2_stops. }
  split; [apply Hrun | by rewrite !Hrun].
Qed.

End Dispatch.

(** ** Splitting at a separator of any length *)

Section SplitGeneral.

Lemma contains_empty (sep : string) : contains sep "" -> sep = "".
Proof.
  intros ([|x pre] & post & H); [|done].
  simpl in H. by destruct sep.
Qed.

Lemma contains_tail (sep : string) (x : ascii) (s : string) :
  contains sep (String x s) ->
  String.prefix sep (String x s) = false ->
  contains sep s.
Proof.
  intros ([|y pre] & post & H) Hpre.
  - simpl in H. assert (String.prefix sep (String x s) = true) as Ht
      by (apply prefix_spec; eauto).
    congruence.
  - simpl in H. injection H as _ ->. by exists pre, post.
Qed.

Lemma contains_cons (sep : string) (x : ascii) (s : string) :
  contains sep s -> contains sep (String x s).
Proof. intros (pre & post & ->). by exists (String x pre), post. Qed.

Lemma prefix_contains (sep s : string) :
  String.prefix sep s = true -> contains sep s.
Proof. intros (t & ->)%prefix_spec. by exists "", t. Qed.

Lemma push_char_cons (x : ascii) (l : list string) :
  l <> [] -> exists h tl, l = h :: tl /\ push_char x l = String x h :: tl.
Proof. destruct l as [|h tl]; [done | eauto]. Qed.

Lemma split_go_cons (sep : string) (m : option nat) (x : ascii) (s : string) :
  split_go sep m 0 (String x s)
  = if negb (bool_decide (m = Some 0)) && String.prefix sep (String x s)
    then "" :: split_go sep (pred <$> m) (String.length sep - 1) s
    else push_char x (split_go sep m 0 s).
Proof. reflexivity. Qed.

(** No occurrence of the separator: one part, the whole string. *)
Lemma split_go_absent (sep : string) (m : option nat) (s : string) :
  ~ contains sep s -> split_go sep m 0 s = [s].
Proof.
  induction s as [|x s IH]; intros Hno; [done |].
  rewrite split_go_cons.
  destruct (String.prefix sep (String x s)) eqn:Hpre.
  { destruct Hno. by apply prefix_contains. }
  rewrite andb_false_r, IH; [done |].
  intros Hc. apply Hno. by apply contains_cons.
Qed.

(** With no split left the rest is one part. *)
Lemma split_go_exhausted (sep : string) (s : string) :
  split_go sep (Some 0) 0 s = [s].
Proof.
  induction s as [|x s IH]; [done |].
  rewrite split_go_cons. rewrite bool_decide_true by done. simpl. by rewrite IH.
Qed.

(** Skipping the tail of a separator that has just been found. *)
Lemma split_go_skip (sep : string) (m : option nat) (x rest : string) :
  split_go sep m (String.length x) (x +:+ rest) = split_go sep m 0 rest.
Proof. induction x as [|c x IH]; [done | simpl; apply IH]. Qed.

(** A part free of the separator's first character, then the separator. *)
Lemma split_go_segment (c : ascii) (sep' : string) (m : option nat)
      (pre rest : string) :
  m <> Some 0 ->
  has_char c pre = false ->
  split_go (String c sep') m 0 (pre +:+ String c sep' +:+ rest)
  = pre :: split_go (String c sep') (pred <$> m) 0 rest.
Proof.
  intros Hm. induction pre as [|x pre IH]; intros Hpre.
  - change ("" +:+ String c sep' +:+ rest) with (String c (sep' +:+ rest)).
    rewrite split_go_cons.
    assert (String.prefix (String c sep') (String c (sep' +:+ rest)) = true) as ->
      by (apply prefix_spec; by exists rest).
    rewrite bool_decide_false by done. simpl.
    by rewrite Nat.sub_0_r, split_go_skip.
  - simpl in Hpre. apply orb_false_iff in Hpre as [Hx Hpre].
    apply bool_decide_eq_false in Hx.
    change (String x pre +:+ String c sep' +:+ rest)
      with (String x (pre +:+ String c sep' +:+ rest)).
    rewrite split_go_cons.
    assert (String.prefix (String c sep') (String x (pre +:+ String c sep' +:+ rest))
            = false) as ->.
    { simpl. destruct (ascii_dec c x) as [->|_]; done. }
    rewrite andb_false_r, IH by done. done.
Qed.

(** An occurrence of a non-empty separator gives at least two parts. *)
Lemma split_go_present (sep : string) (s : string) :
  sep <> "" -> contains sep s ->
  exists a b l, split sep s = a :: b :: l.
Proof.
  intros Hsep. unfold split. induction s as [|x s IH]; intros Hc.
  - by apply contains_empty in Hc.
  - rewrite split_go_cons.
    destruct (String.prefix sep (String x s)) eqn:Hpre; simpl.
    + destruct (split_go sep None (String.length sep - 1) s) as [|b l] eqn:E;
        [by apply split_nonempty in E | eauto].
    + destruct IH as (a & b & l & ->); [by eapply contains_tail | eauto].
Qed.

Lemma slash_free_absent (s : string) :
  has_char "/" s = false -> ~ contains "/" s.
Proof. intros H Hc. apply has_char_contains in Hc. congruence. Qed.

(** The last part of a path that ends in a slash-free name. *)
Lemma split_last_name (d file : string) :
  has_char "/" file = false ->
  exists h tl, split "/" (d +:+ "/" +:+ file) = h :: tl /\ last tl = Some file.
Proof.
  intros Hfile. induction d as [|x d (h & tl & E & Hl)].
  - change ("" +:+ "/" +:+ file) with (String "/" file).
    rewrite split_char_cons, bool_decide_true by done.
    rewrite (split_char_single "/" file) by done. by exists "", [file].
  - change (String x d +:+ "/" +:+ file) with (String x (d +:+ "/" +:+ file)).
    rewrite split_char_cons, E. destruct (bool_decide (x = "/"%char)).
    + exists "", (h :: tl). split; [done |].
      destruct tl; [done |]. by rewrite last_cons, Hl.
    + simpl. eauto.
Qed.

End SplitGeneral.

(** ** The classifier, outcome by outcome *)

Section ClassifierOutcomes.
Import Paths.

Lemma identify_s3_iff (s : string) :
  identify_location_type s = Ok "s3" <-> contains "s3://" s.
Proof.
  rewrite <- str_in_spec.
  destruct (first_segment "/" s) as (seg & Hseg).
  rewrite (identify_location_type_unfold s seg) by done.
  destruct (str_in "s3://" s); [done |].
  by destruct (_ && _).
Qed.

Lemma identify_raises_exception (s : string) (e : exn) :
  identify_location_type s = Raise e -> e = Exception.
Proof.
  destruct (first_segment "/" s) as (seg & Hseg).
  rewrite (identify_location_type_unfold s seg) by done.
  destruct (str_in "s3://" s); [done |].
  destruct (_ && _); [done | by intros [= <-]].
Qed.

Lemma newline_segment_slash_free (a : string) :
  ipv4 a -> has_char "/" (a +:+ String nl "") = false.
Proof. intros Ha. by rewrite has_char_app, ipv4_no_slash. Qed.

Lemma identify_on_prem_iff (s : string) :
  identify_location_type s = Ok "on-prem"
  <-> ~ contains "s3://" s
      /\ exists seg rest,
           s = seg +:+ "/" +:+ rest
           /\ (ipv4 seg \/ exists a, seg = a +:+ String nl "" /\ ipv4 a).
Proof.
  split.
  - destruct (first_segment "/" s) as (seg & Hseg & Hs).
    rewrite (identify_location_type_unfold s seg) by done.
    destruct (str_in "s3://" s) eqn:Hmark; [done |].
    apply str_in_false in Hmark.
    destruct (search ipv4_re seg) eqn:Hre; [|done].
    destruct (has_char "/" s) eqn:Hslash; [|done]. intros _.
    split; [done |]. destruct Hs as [->|(rest & ->)]; [congruence |].
    exists seg, rest. split; [done |]. by apply search_ipv4_re.
  - intros (Hmark & seg & rest & -> & Hseg).
    assert (search ipv4_re seg = true) as Hre by by apply search_ipv4_re.
    assert (has_char "/" seg = false) as Hfree.
    { destruct Hseg as [Hip|(a & -> & Hip)];
        [by apply ipv4_no_slash | by apply newline_segment_slash_free]. }
    rewrite (identify_location_type_unfold _ seg) by (split; eauto).
    apply str_in_false in Hmark. rewrite Hmark, Hre, has_char_app. simpl.
    by rewrite orb_true_r.
Qed.

(** X1: [re.search] with the pattern of the classifier succeeds exactly on
    four dot-separated numerals of one to three digits and value at most
    255, optionally followed by a single newline. *)
Theorem address_pattern_language (s : string) :
  search ipv4_re s = true
  <-> ipv4 s \/ exists s0, s = s0 +:+ String nl "" /\ ipv4 s0.
Proof. apply search_ipv4_re. Qed.

(** X2: the classifier has three outcomes only: the tag ['s3'], the tag
    ['on-prem'], or the bare [Exception]; no [IndexError] of its list
    accesses escapes. *)
Theorem classifier_outcomes (s : string) :
  identify_location_type s = Ok "s3"
  \/ identify_location_type s = Ok "on-prem"
  \/ identify_location_type s = Raise Exception.
Proof.
  destruct (identify_location_type s) as [tag|e] eqn:E.
  - apply identify_location_type_tags in E as [-> | ->]; auto.
  - apply identify_raises_exception in E as ->. auto.
Qed.

(** X3: the tag ['s3'] is returned exactly for the strings that contain
    [s3://]. *)
Theorem classifier_s3_iff (s : string) :
  identify_location_type s = Ok "s3" <-> contains "s3://" s.
Proof. apply identify_s3_iff. Qed.

(** X4: the tag ['on-prem'] is returned exactly for the strings without
    [s3://] that have a [/] and whose part before the first [/] is an
    address or an address followed by a newline. *)
Theorem classifier_on_prem_iff (s : string) :
  identify_location_type s = Ok "on-prem"
  <-> ~ contains "s3://" s
      /\ exists seg rest,
           s = seg +:+ "/" +:+ rest
           /\ (ipv4 seg \/ exists a, seg = a +:+ String nl "" /\ ipv4 a).
Proof. apply identify_on_prem_iff. Qed.

End ClassifierOutcomes.

(** ** The store-to-store executor *)

Section StoreToStore.
Import Paths.

Lemma marker_nonempty : "s3://" <> "".
Proof. done. Qed.

Lemma split_marker_bare (a : string) :
  ~ contains "s3://" a -> split "s3://" ("s3://" +:+ a) = [""; a].
Proof.
  intros Ha. unfold split.
  change ("s3://" +:+ a) with ("" +:+ String "s" "3://" +:+ a).
  rewrite (split_go_segment "s" "3://" None "" a) by done.
  simpl. by rewrite split_go_absent.
Qed.

Lemma index_marker_present (s : string) :
  contains "s3://" s -> exists a, index (split "s3://" s) 1 = Ok a.
Proof.
  intros Hs. destruct (split_go_present "s3://" s marker_nonempty Hs)
    as (a & b & l & ->).
  by exists b.
Qed.

Lemma index_marker_absent (s : string) :
  ~ contains "s3://" s -> index (split "s3://" s) 1 = Raise (A:=string) IndexError.
Proof. intros Hs. unfold split. by rewrite split_go_absent. Qed.

Lemma mv_missing : s3_client_getattr "mv" = Raise (AttributeError "mv").
Proof. vm_compute. reflexivity. Qed.

(** Past the two list accesses the executor stops at the lookup of
    [s3.mv]. *)
Lemma s3_to_s3_run (w : World) (src tgt a b : string) (t : trace) :
  index (split "s3://" src) 1 = Ok a ->
  index (split "s3://" tgt) 1 = Ok b ->
  _move_s3_to_s3 w src tgt t = (Raise Exception, t).
Proof.
  intros Ha Hb. unfold _move_s3_to_s3, bind, lift, attempt, perform, ret.
  by rewrite Ha, Hb, mv_missing.
Qed.

(** X5: the store-to-store executor never returns: on every pair of
    locations, whatever the collaborators would answer, it raises
    [IndexError] or the bare [Exception], and it sends no request. *)
Theorem s3_to_s3_outcome (w : World) (src tgt : string) (t : trace) :
  _move_s3_to_s3 w src tgt t = (Raise IndexError, t)
  \/ _move_s3_to_s3 w src tgt t = (Raise Exception, t).
Proof.
  unfold _move_s3_to_s3, bind, lift, attempt, perform, ret.
  destruct (index (split "s3://" src) 1) as [a|e] eqn:Ha.
  - destruct (index (split "s3://" tgt) 1) as [b|e] eqn:Hb.
    + right. by rewrite mv_missing.
    + left. unfold Py.index in Hb.
      by destruct (split "s3://" tgt !! 1); simplify_eq.
  - left. unfold Py.index in Ha.
    by destruct (split "s3://" src !! 1); simplify_eq.
Qed.

(** X6: whenever both locations contain [s3://], wherever it stands, the
    executor gets past its list accesses and then fails on [s3.mv], which
    the boto3 client does not have: it raises the bare [Exception], sends
    no request and moves nothing. *)
Theorem s3_to_s3_marker_present (w : World) (src tgt : string) (t : trace) :
  contains "s3://" src ->
  contains "s3://" tgt ->
  _move_s3_to_s3 w src tgt t = (Raise Exception, t).
Proof.
  intros Hs Ht.
  destruct (index_marker_present src Hs) as (a & Ha).
  destruct (index_marker_present tgt Ht) as (b & Hb).
  by apply (s3_to_s3_run w src tgt a b).
Qed.

Lemma s3_to_s3_marker_present_witness :
  _move_s3_to_s3 Fixtures.calm "s3://bucket-a/in.csv" "x s3://bucket-b" []
  = (Raise Exception, []).
Proof.
  apply (s3_to_s3_marker_present Fixtures.calm "s3://bucket-a/in.csv"
           "x s3://bucket-b" []).
  - exists "", "bucket-a/in.csv". reflexivity.
  - exists "x ", "bucket-b". reflexivity.
Defined.

(** X7: called on a location without [s3://] the executor raises
    [IndexError] and sends no request. *)
Theorem s3_to_s3_marker_absent (w : World) (src tgt : string) (t : trace) :
  ~ contains "s3://" src \/ ~ contains "s3://" tgt ->
  _move_s3_to_s3 w src tgt t = (Raise IndexError, t).
Proof.
  intros Hno. unfold _move_s3_to_s3, bind, lift.
  destruct (str_in "s3://" src) eqn:Hs.
  - apply str_in_spec in Hs. destruct Hno as [Hno|Hno]; [done |].
    destruct (index_marker_present src Hs) as (a & ->).
    by rewrite index_marker_absent.
  - apply str_in_false in Hs. by rewrite index_marker_absent.
Qed.

Lemma s3_to_s3_marker_absent_witness :
  _move_s3_to_s3 Fixtures.calm "s3://bucket-a" "10.21.13.12/share" []
  = (Raise IndexError, []).
Proof.
  apply (s3_to_s3_marker_absent Fixtures.calm "s3://bucket-a" "10.21.13.12/share" []).
  right. apply str_in_false. reflexivity.
Defined.

End StoreToStore.

(** ** The on-premises to object-store executor *)

Section OnPremToStore.
Import Paths.

Lemma splitn_three (ip root path : string) :
  has_char "/" ip = false ->
  has_char "/" root = false ->
  splitn "/" 2 (ip +:+ "/" +:+ root +:+ "/" +:+ path) = [ip; root; path].
Proof.
  intros Hip Hroot. unfold splitn.
  rewrite (split_go_segment "/" "" (Some 2) ip) by done.
  change (pred <$> Some 2) with (Some 1).
  rewrite (split_go_segment "/" "" (Some 1) root) by done.
  change (pred <$> Some 1) with (Some 0).
  by rewrite split_go_exhausted.
Qed.

Lemma splitn_two (ip share : string) :
  has_char "/" ip = false ->
  has_char "/" share = false ->
  splitn "/" 2 (ip +:+ "/" +:+ share) = [ip; share].
Proof.
  intros Hip Hshare. unfold splitn.
  rewrite (split_go_segment "/" "" (Some 2) ip) by done.
  by rewrite split_go_absent by by apply slash_free_absent.
Qed.

Lemma last_name (path file : string) :
  names path file -> last (split "/" path) = Some file.
Proof.
  intros [Hfile [->|(dir & ->)]].
  - by rewrite (split_char_single "/" file).
  - destruct (split_last_name dir file Hfile) as (h & tl & -> & Hl).
    by rewrite last_cons, Hl.
Qed.

Lemma last_name_location (ip root path file : string) :
  has_char "/" ip = false ->
  has_char "/" root = false ->
  names path file ->
  last (split "/" (ip +:+ "/" +:+ root +:+ "/" +:+ path)) = Some file.
Proof.
  intros Hip Hroot Hnames.
  change (ip +:+ "/" +:+ root +:+ "/" +:+ path)
    with (ip +:+ String "/" (root +:+ String "/" path)).
  rewrite (split_char_segment "/" ip), (split_char_segment "/" root) by done.
  by rewrite !last_cons, (last_name path file).
Qed.

Variables (w : World) (environ : gmap string string) (t : trace).
Variables (enc_user enc_key user key : string).

Hypothesis env_user : environ !! "AD_username" = Some enc_user.
Hypothesis env_key : environ !! "AD_key" = Some enc_key.
Hypothesis plain_user : kms_decrypt w enc_user = Ok user.
Hypothesis plain_key : kms_decrypt w enc_key = Ok key.

(** Up to the connection attempt. *)
Lemma on_prem_to_s3_connect (src tgt ip root dir file bucket : string) :
  splitn "/" 2 src = [ip; root; dir] ->
  last (split "/" src) = Some file ->
  index (split "s3://" tgt) 1 = Ok bucket ->
  boto3_client w "s3" = Ok tt ->
  _move_on_prem_to_s3 w environ src tgt t
  = let asked :=
      t ++ [KmsDecrypt enc_user; KmsDecrypt enc_key; Boto3Client "s3";
            SmbConnect user key "FileTransferService" "XXXX" "XXX" ip 445] in
    match smb_connect w user key ip 445 with
    | Raise e => (Raise e, asked)
    | Ok VTrue =>
        (Ok VTrue,
         asked ++ [SmbRetrieveFile root dir;
                   S3UploadFileobj (smb_retrieveFile w root dir).1 bucket file])
    | Ok _ => (Ok VFalse, asked)
    end.
Proof using env_user env_key plain_user plain_key.
  intros Hsplit Hlast Hbucket Hclient.
  unfold _move_on_prem_to_s3, decrypt_KMS_credentials, bind, lift, attempt,
    perform, ret, getitem, index_last.
  rewrite env_user, env_key, plain_user, plain_key, Hsplit, Hlast, Hbucket, Hclient.
  simpl. rewrite <- !app_assoc. simpl.
  destruct (smb_connect w user key ip 445) as [[]|e]; try done.
  destruct (smb_retrieveFile w root dir) as [data failure]. simpl.
  by rewrite <- !app_assoc.
Qed.

(** X8: on [ip/root/path] and [s3://bucket], once the credentials are
    decrypted, the client exists and the server accepts the connection, the
    executor returns [True] after six requests in this order: the two
    decryptions, the client, the connection to [ip] on port 445 with the
    decrypted credentials, the retrieval of [path] from the share [root],
    and the upload of exactly the bytes that reached the buffer to the
    bucket named by all that follows [s3://], under the last name of
    [path]. *)
Theorem on_prem_to_s3_requests (ip root path file bucket : string) :
  has_char "/" ip = false ->
  has_char "/" root = false ->
  names path file ->
  ~ contains "s3://" bucket ->
  boto3_client w "s3" = Ok tt ->
  smb_connect w user key ip 445 = Ok VTrue ->
  _move_on_prem_to_s3 w environ (ip +:+ "/" +:+ root +:+ "/" +:+ path)
    ("s3://" +:+ bucket) t
  = (Ok VTrue,
     t ++ [KmsDecrypt enc_user; KmsDecrypt enc_key; Boto3Client "s3";
           SmbConnect user key "FileTransferService" "XXXX" "XXX" ip 445;
           SmbRetrieveFile root path;
           S3UploadFileobj (smb_retrieveFile w root path).1 bucket file]).
Proof using env_user env_key plain_user plain_key.
  intros Hip Hroot Hnames Hbucket Hclient Hconn.
  rewrite (on_prem_to_s3_connect _ _ ip root path file bucket);
    [| by apply splitn_three | by apply last_name_location
     | by rewrite split_marker_bare | done].
  rewrite Hconn. simpl. by rewrite <- app_assoc.
Qed.

(** X9: when the server answers the connection attempt with anything but
    [True], the executor returns [False]; nothing is retrieved and nothing
    is uploaded. *)
Theorem on_prem_to_s3_refused (ip root path file bucket : string) (answer : value) :
  has_char "/" ip = false ->
  has_char "/" root = false ->
  names path file ->
  ~ contains "s3://" bucket ->
  boto3_client w "s3" = Ok tt ->
  smb_connect w user key ip 445 = Ok answer ->
  answer <> VTrue ->
  _move_on_prem_to_s3 w environ (ip +:+ "/" +:+ root +:+ "/" +:+ path)
    ("s3://" +:+ bucket) t
  = (Ok VFalse,
     t ++ [KmsDecrypt enc_user; KmsDecrypt enc_key; Boto3Client "s3";
           SmbConnect user key "FileTransferService" "XXXX" "XXX" ip 445]).
Proof using env_user env_key plain_user plain_key.
  intros Hip Hroot Hnames Hbucket Hclient Hconn Hanswer.
  rewrite (on_prem_to_s3_connect _ _ ip root path file bucket);
    [| by apply splitn_three | by apply last_name_location
     | by rewrite split_marker_bare | done].
  rewrite Hconn. simpl. by destruct answer.
Qed.

(** X10: when no S3 client can be created the executor returns [False]
    without contacting the SMB server. *)
Theorem on_prem_to_s3_no_client (ip root path file bucket : string) (e : exn) :
  has_char "/" ip = false ->
  has_char "/" root = false ->
  names path file ->
  ~ contains "s3://" bucket ->
  boto3_client w "s3" = Raise e ->
  _move_on_prem_to_s3 w environ (ip +:+ "/" +:+ root +:+ "/" +:+ path)
    ("s3://" +:+ bucket) t
  = (Ok VFalse, t ++ [KmsDecrypt enc_user; KmsDecrypt enc_key; Boto3Client "s3"]).
Proof using env_user env_key plain_user plain_key.
  intros Hip Hroot Hnames Hbucket Hclient.
  unfold _move_on_prem_to_s3, decrypt_KMS_credentials, bind, lift, attempt,
    perform, ret, getitem, index_last.
  rewrite env_user, env_key, plain_user, plain_key, splitn_three,
    (last_name_location ip root path file), split_marker_bare, Hclient by done.
  simpl. by rewrite <- !app_assoc.
Qed.

(** X11: a location that stops after the share, [ip/share], makes the
    executor raise [IndexError]: the credentials have been decrypted by
    then, and no connection is attempted. *)
Theorem on_prem_to_s3_share_only (ip share tgt : string) :
  has_char "/" ip = false ->
  has_char "/" share = false ->
  _move_on_prem_to_s3 w environ (ip +:+ "/" +:+ share) tgt t
  = (Raise IndexError, t ++ [KmsDecrypt enc_user; KmsDecrypt enc_key]).
Proof using env_user env_key plain_user plain_key.
  intros Hip Hshare.
  unfold _move_on_prem_to_s3, decrypt_KMS_credentials, bind, lift, attempt,
    perform, ret, getitem.
  rewrite env_user, env_key, plain_user, plain_key, splitn_two by done.
  simpl. by rewrite <- !app_assoc.
Qed.

End OnPremToStore.

Section OnPremToStoreRuns.
Import Paths.

Lemma on_prem_to_s3_requests_witness :
  _move_on_prem_to_s3 Fixtures.calm Fixtures.environ
    "10.21.13.12/Matillion_Output/out/hello.csv" "s3://bucket-test/in" []
  = (Ok VTrue,
     [KmsDecrypt "dXNlcg=="; KmsDecrypt "c2VjcmV0"; Boto3Client "s3";
      SmbConnect "plain:dXNlcg==" "plain:c2VjcmV0" "FileTransferService" "XXXX"
        "XXX" "10.21.13.12" 445;
      SmbRetrieveFile "Matillion_Output" "out/hello.csv";
      S3UploadFileobj "payload" "bucket-test/in" "hello.csv"]).
Proof.
  apply (on_prem_to_s3_requests Fixtures.calm Fixtures.environ []
           "dXNlcg==" "c2VjcmV0" "plain:dXNlcg==" "plain:c2VjcmV0"
           eq_refl eq_refl eq_refl eq_refl
           "10.21.13.12" "Matillion_Output" "out/hello.csv" "hello.csv"
           "bucket-test/in").
  - reflexivity.
  - reflexivity.
  - split; [reflexivity |]. right. exists "out". reflexivity.
  - apply str_in_false. reflexivity.
  - reflexivity.
  - reflexivity.
Defined.

Lemma on_prem_to_s3_refused_witness :
  _move_on_prem_to_s3 refusing Fixtures.environ
    "10.21.13.12/Matillion_Output/hello.csv" "s3://bucket-test" []
  = (Ok VFalse,
     [KmsDecrypt "dXNlcg=="; KmsDecrypt "c2VjcmV0"; Boto3Client "s3";
      SmbConnect "plain:dXNlcg==" "plain:c2VjcmV0" "FileTransferService" "XXXX"
        "XXX" "10.21.13.12" 445]).
Proof.
  apply (on_prem_to_s3_refused refusing Fixtures.environ []
           "dXNlcg==" "c2VjcmV0" "plain:dXNlcg==" "plain:c2VjcmV0"
           eq_refl eq_refl eq_refl eq_refl
           "10.21.13.12" "Matillion_Output" "hello.csv" "hello.csv"
           "bucket-test" VFalse).
  - reflexivity.
  - reflexivity.
  - split; [reflexivity |]. by left.
  - apply str_in_false. reflexivity.
  - reflexivity.
  - reflexivity.
  - discriminate.
Defined.

Lemma on_prem_to_s3_no_client_witness :
  _move_on_prem_to_s3 no_store Fixtures.environ
    "10.21.13.12/Matillion_Output/hello.csv" "s3://bucket-test" []
  = (Ok VFalse,
     [KmsDecrypt "dXNlcg=="; KmsDecrypt "c2VjcmV0"; Boto3Client "s3"]).
Proof.
  apply (on_prem_to_s3_no_client no_store Fixtures.environ []
           "dXNlcg==" "c2VjcmV0" "plain:dXNlcg==" "plain:c2VjcmV0"
           eq_refl eq_refl eq_refl eq_refl
           "10.21.13.12" "Matillion_Output" "hello.csv" "hello.csv"
           "bucket-test" (External "NoCredentialsError")).
  - reflexivity.
  - reflexivity.
  - split; [reflexivity |]. by left.
  - apply str_in_false. reflexivity.
  - reflexivity.
Defined.

Lemma on_prem_to_s3_share_only_witness :
  identify_location_type "10.10.10.100/Matillion_Output" = Ok "on-prem"
  /\ _move_on_prem_to_s3 Fixtures.calm Fixtures.environ
       "10.10.10.100/Matillion_Output" "s3://bucket-test" []
     = (Raise IndexError, [KmsDecrypt "dXNlcg=="; KmsDecrypt "c2VjcmV0"]).
Proof.
  split; [vm_compute; reflexivity |].
  apply (on_prem_to_s3_share_only Fixtures.calm Fixtures.environ []
           "dXNlcg==" "c2VjcmV0" "plain:dXNlcg==" "plain:c2VjcmV0"
           eq_refl eq_refl eq_refl eq_refl
           "10.10.10.100" "Matillion_Output" "s3://bucket-test");
    reflexivity.
Defined.

(** X12: when [AD_username] or [AD_key] is not set the executor raises
    [KeyError] for the first of the two that is missing, before any
    request is sent. *)
Theorem on_prem_to_s3_missing_credentials
        (w : World) (environ : gmap string string) (src tgt : string) (t : trace) :
  environ !! "AD_username" = None \/ environ !! "AD_key" = None ->
  _move_on_prem_to_s3 w environ src tgt t
  = (Raise (KeyError (match environ !! "AD_username" with
                      | Some _ => "AD_key"
                      | None => "AD_username"
                      end)),
     t).
Proof.
  intros Hmissing.
  unfold _move_on_prem_to_s3, bind, lift, getitem.
  destruct (environ !! "AD_username") as [u|]; [|done].
  destruct Hmissing as [Hu|Hk]; [done |]. by rewrite Hk.
Qed.

Lemma on_prem_to_s3_missing_credentials_witness :
  _move_on_prem_to_s3 Fixtures.calm (delete "AD_key" Fixtures.environ)
    "10.21.13.12/Matillion_Output/hello.csv" "s3://bucket-test" []
  = (Raise (KeyError "AD_key"), []).
Proof.
  refine (eq_trans
            (on_prem_to_s3_missing_credentials Fixtures.calm
               (delete "AD_key" Fixtures.environ)
               "10.21.13.12/Matillion_Output/hello.csv" "s3://bucket-test" [] _) _).
  - right. reflexivity.
  - vm_compute. reflexivity.
Defined.

End OnPremToStoreRuns.

(** ** [move_files] and the stand-alone entry *)

Section MoveFiles.
Import Paths file_transfer_main.

Lemma identify_bare_store (a : string) :
  identify_location_type ("s3://" +:+ a) = Ok "s3".
Proof. apply identify_s3_iff. by exists "", a. Qed.

Lemma move_files_rejects (w : World) (environ : gmap string string)
      (src tgt : string) (t : trace) :
  identify_location_type src = Raise Exception
  \/ identify_location_type tgt = Raise Exception ->
  move_files w environ src tgt t = (Raise Exception, t).
Proof.
  intros Hbad. unfold move_files, bind, lift.
  destruct (identify_location_type src) as [tag|e] eqn:Hs.
  - destruct Hbad as [Hbad|Hbad]; [done |]. by rewrite Hbad.
  - by apply identify_raises_exception in Hs as ->.
Qed.

(** X13: when either location is unclassifiable, [move_files] raises the
    bare [Exception] before any request is sent. *)
Theorem move_files_invalid_location (w : World) (environ : gmap string string)
        (src tgt : string) (t : trace) :
  identify_location_type src = Raise Exception
  \/ identify_location_type tgt = Raise Exception ->
  move_files w environ src tgt t = (Raise Exception, t).
Proof. apply move_files_rejects. Qed.

Lemma move_files_invalid_location_witness :
  move_files Fixtures.calm Fixtures.environ "s3://bucket-test" "10.21.13.12" []
  = (Raise Exception, []).
Proof.
  apply (move_files_invalid_location Fixtures.calm Fixtures.environ
           "s3://bucket-test" "10.21.13.12" []).
  right. vm_compute. reflexivity.
Defined.

(** X14: when both locations contain [s3://], [move_files] raises the
    bare [Exception] and sends no request: a store-to-store move through
    this module never takes place. *)
Theorem move_files_store_to_store (w : World) (environ : gmap string string)
        (src tgt : string) (t : trace) :
  contains "s3://" src ->
  contains "s3://" tgt ->
  move_files w environ src tgt t = (Raise Exception, t).
Proof.
  intros Hs Ht.
  rewrite (move_files_dispatch w environ _ _ ObjectStore ObjectStore)
    by by apply identify_s3_iff.
  unfold bind, ret.
  change (run_executor (strategy ObjectStore ObjectStore) w environ src tgt)
    with (_move_s3_to_s3 w src tgt).
  destruct (index_marker_present src Hs) as (a & Ha).
  destruct (index_marker_present tgt Ht) as (b & Hb).
  by rewrite (s3_to_s3_run w src tgt a b).
Qed.

Lemma move_files_store_to_store_witness :
  move_files Fixtures.calm Fixtures.environ "s3://bucket-a/in.csv"
    "s3://bucket-b/out.csv" []
  = (Raise Exception, []).
Proof.
  apply (move_files_store_to_store Fixtures.calm Fixtures.environ
           "s3://bucket-a/in.csv" "s3://bucket-b/out.csv" []).
  - exists "", "bucket-a/in.csv". reflexivity.
  - exists "", "bucket-b/out.csv". reflexivity.
Defined.

(** X15: the stand-alone entry ends in the usage exit exactly when a flag
    is absent or empty, and the locations are then not looked at; in
    every other case, and only then, it is the run of [move_files] on the
    two flags as given. *)
Theorem main_usage_iff (w : World) (environ : gmap string string)
        (args : namespace) :
  (main w environ args = inl usage
   <-> source args = None \/ source args = Some ""
       \/ target args = None \/ target args = Some "")
  /\ (forall run : M value,
        main w environ args = inr run
        <-> exists source_location target_location,
              source args = Some source_location
              /\ target args = Some target_location
              /\ source_location <> "" /\ target_location <> ""
              /\ run = move_files w environ source_location target_location)
  /\ (forall msg : string, main w environ args = inl msg -> msg = usage).
Proof.
  unfold main. destruct args as [[s|] [u|]]; simpl.
  - destruct (decide (s = "")) as [->|Hs].
    { rewrite bool_decide_true by done. split_and!.
      - split; auto.
      - intros run. split; [done |].
        intros (s' & u' & [= <-] & _ & Hs' & _); done.
      - by intros msg [= <-]. }
    rewrite bool_decide_false by done.
    destruct (decide (u = "")) as [->|Hu].
    { rewrite bool_decide_true by done. split_and!.
      - split; auto.
      - intros run. split; [done |].
        intros (s' & u' & _ & [= <-] & _ & Hu' & _); done.
      - by intros msg [= <-]. }
    rewrite bool_decide_false by done. split_and!.
    + split; [done |]. intros [?|[?|[?|?]]]; congruence.
    + intros run. split.
      * intros [= <-]. by exists s, u.
      * by intros (s' & u' & [= <-] & [= <-] & _ & _ & ->).
    + done.
  - split_and!.
    + destruct (bool_decide (s = "")); split; auto.
    + intros run. split.
      * by destruct (bool_decide (s = "")).
      * by intros (s' & u' & _ & [=] & _).
    + intros msg. by destruct (bool_decide (s = "")); intros [= <-].
  - split_and!.
    + split; auto.
    + intros run. split; [done |]. by intros (s' & u' & [=] & _).
    + by intros msg [= <-].
  - split_and!.
    + split; auto.
    + intros run. split; [done |]. by intros (s' & u' & [=] & _).
    + by intros msg [= <-].
Qed.

(** X16: with both flags given, a location that cannot be classified ends
    the stand-alone run in the bare [Exception] of the classifier, not in
    the usage exit, and no request is sent. *)
Theorem main_invalid_location (w : World) (environ : gmap string string)
        (src tgt : string) (t : trace) :
  src <> "" ->
  tgt <> "" ->
  identify_location_type src = Raise Exception
  \/ identify_location_type tgt = Raise Exception ->
  exists run,
    main w environ {| source := Some src; target := Some tgt |} = inr run
    /\ run t = (Raise Exception, t).
Proof.
  intros Hs Ht Hbad. exists (move_files w environ src tgt). split.
  - unfold main. simpl. by rewrite !bool_decide_false by done.
  - by apply move_files_rejects.
Qed.

Lemma main_invalid_location_witness :
  exists run,
    main Fixtures.calm Fixtures.environ
      {| source := Some "bucket-test/hello.csv";
         target := Some "10.21.13.12/share" |} = inr run
    /\ run [] = (Raise Exception, []).
Proof.
  apply (main_invalid_location Fixtures.calm Fixtures.environ
           "bucket-test/hello.csv" "10.21.13.12/share" []).
  - discriminate.
  - discriminate.
  - left. vm_compute. reflexivity.
Defined.

End MoveFiles.

(** ** The dispatcher, outcome by outcome *)

Section DispatchOutcomes.

(** X17: whatever the event, the environment and the collaborators, the
    dispatcher sends no request at all: no instance is ever launched. *)
Theorem lambda_handler_sends_nothing
        (w : World) (environ event : gmap string string) (t : trace) :
  (lambda_handler w environ event t).2 = t.
Proof.
  unfold lambda_handler, bind, lift, ret, getitem.
  destruct (event !! "target_location") as [tgt|]; [|done].
  destruct (identify_location_type tgt) as [tk|]; [|done].
  destruct (event !! "source_location") as [src|]; [|done].
  destruct (identify_location_type src) as [sk|]; [|done].
  destruct (environ !! "PYTHON_HANDLER") as [h|]; [|done].
  destruct (_ && _); [done |].
  destruct (_ || _); [|done].
  by rewrite create_EC2_stops.
Qed.

(** X18: the dispatcher hands back an answer exactly when the event has
    both locations, both contain [s3://] and [PYTHON_HANDLER] is set; the
    answer is then the status 200 with the "not required" text. *)
Theorem lambda_handler_answers_iff
        (w : World) (environ event : gmap string string) (t t' : trace)
        (r : response) :
  lambda_handler w environ event t = (Ok r, t')
  <-> (exists src tgt python_handler,
         event !! "source_location" = Some src
         /\ event !! "target_location" = Some tgt
         /\ environ !! "PYTHON_HANDLER" = Some python_handler
         /\ contains "s3://" src /\ contains "s3://" tgt)
      /\ r = {| statusCode := 200;
                body := "File transfer started. AWS transfer only - not required." |}
      /\ t' = t.
Proof.
  split.
  - unfold lambda_handler, bind, lift, ret, getitem.
    destruct (event !! "target_location") as [tgt|] eqn:Htgt; [|done].
    destruct (identify_location_type tgt) as [tk|] eqn:Ht; [|done].
    destruct (event !! "source_location") as [src|] eqn:Hsrc; [|done].
    destruct (identify_location_type src) as [sk|] eqn:Hs; [|done].
    destruct (environ !! "PYTHON_HANDLER") as [h|] eqn:Hpy; [|done].
    apply identify_location_type_tags in Ht as Htag.
    apply identify_location_type_tags in Hs as Hsag.
    destruct Htag as [-> | ->], Hsag as [-> | ->]; simpl;
      rewrite ?create_EC2_stops; try done.
    intros [= <- <-]. split_and!; [|done..].
    exists src, tgt, h. split_and!; try done; by apply identify_s3_iff.
  - intros ((src & tgt & h & Hsrc & Htgt & Hpy & Hs & Ht) & -> & ->).
    apply (lambda_handler_store_to_store w _ _ src tgt h); try done;
      by apply identify_s3_iff.
Qed.

(** X19: with both locations classified, a missing [PYTHON_HANDLER] makes
    the dispatcher raise [KeyError], also for a store-to-store event that
    would not use the handler name. *)
Theorem lambda_handler_needs_handler_name
        (w : World) (environ event : gmap string string)
        (src tgt source_type target_type : string) (t : trace) :
  event !! "source_location" = Some src ->
  event !! "target_location" = Some tgt ->
  identify_location_type src = Ok source_type ->
  identify_location_type tgt = Ok target_type ->
  environ !! "PYTHON_HANDLER" = None ->
  lambda_handler w environ event t = (Raise (KeyError "PYTHON_HANDLER"), t).
Proof.
  intros Hsrc Htgt Hs Ht Hpy.
  unfold lambda_handler, bind, lift, ret, getitem.
  by rewrite Htgt, Ht, Hsrc, Hs, Hpy.
Qed.

Lemma lambda_handler_needs_handler_name_witness :
  lambda_handler Fixtures.calm (delete "PYTHON_HANDLER" Fixtures.environ)
    Fixtures.store_event []
  = (Raise (KeyError "PYTHON_HANDLER"), []).
Proof.
  apply (lambda_handler_needs_handler_name Fixtures.calm
           (delete "PYTHON_HANDLER" Fixtures.environ) Fixtures.store_event
           "s3://bucket-a/in.csv" "s3://bucket-b/out.csv" "s3" "s3" []);
    reflexivity.
Defined.

(** X20: an event whose target, or whose source next to a classified
    target, cannot be classified makes the dispatcher raise the bare
    [Exception]. *)
Theorem lambda_handler_invalid_location
        (w : World) (environ event : gmap string string)
        (src tgt : string) (t : trace) :
  event !! "source_location" = Some src ->
  event !! "target_location" = Some tgt ->
  identify_location_type src = Raise Exception
  \/ identify_location_type tgt = Raise Exception ->
  lambda_handler w environ event t = (Raise Exception, t).
Proof.
  intros Hsrc Htgt Hbad.
  unfold lambda_handler, bind, lift, ret, getitem. rewrite Htgt, Hsrc.
  destruct (identify_location_type tgt) as [tk|e] eqn:Ht.
  - destruct Hbad as [Hbad|Hbad]; [by rewrite Hbad | done].
  - by apply identify_raises_exception in Ht as ->.
Qed.

Lemma lambda_handler_invalid_location_witness :
  lambda_handler Fixtures.calm Fixtures.environ
    (<["target_location" := "10.10.10.100"]> Fixtures.event) []
  = (Raise Exception, []).
Proof.
  apply (lambda_handler_invalid_location Fixtures.calm Fixtures.environ
           (<["target_location" := "10.10.10.100"]> Fixtures.event)
           "s3://bucket-test" "10.10.10.100" []).
  - reflexivity.
  - reflexivity.
  - right. vm_compute. reflexivity.
Defined.

End DispatchOutcomes.

(** ** Credentials and the script *)

Section ScriptCredentials.
Import Secrets.



End ScriptCredentials.
